(** * Open Farm Game: the composition root [app.js] and the simulation core

    The first half of this development embeds [src/app.js]: the
    configuration object, the Express middleware chain with its route
    table, and the [async.waterfall] start-up sequence.  The second half
    models the crop state machine, the CropType registry and the Update
    Engine, whose modules ([models/crop], [models/croptype],
    [lib/updater]) are required by [app.js]. *)

From Stdlib Require Import ZArith.
From stdpp Require Import gmap strings list fin_maps.

Set Warnings "-register-all".

Local Open Scope Z_scope.
Local Open Scope string_scope.
Local Open Scope list_scope.

(** ** JSON values, as [JSON.parse] produces them *)

Module Json.

(** Numbers are kept to the integers; the configuration only holds a port
    number.  An object is an association list of its own properties. *)
Inductive json : Type :=
| JNull
| JBool (b : bool)
| JNum (n : Z)
| JStr (s : string)
| JArr (xs : list json)
| JObj (fields : list (string * json)).

(** A property read: [None] stands for JavaScript's [undefined]. *)
Definition jsval : Type := option json.

(** [ToBoolean]: what [!v] negates. *)
Definition truthy (v : jsval) : bool :=
  match v with
  | None => false
  | Some JNull => false
  | Some (JBool b) => b
  | Some (JNum n) => negb (n =? 0)%Z
  | Some (JStr s) => negb (String.eqb s "")
  | Some (JArr _) => true
  | Some (JObj _) => true
  end.

(** [v == "disk"].  A string compares by contents; [null], [undefined],
    booleans and numbers never equal a non-numeric string; an object prints
    as [[object Object]]; an array is compared through [join(",")], which
    yields ["disk"] only for a one-element array whose element prints as
    ["disk"]. *)
Fixpoint loose_eq_disk (v : json) : bool :=
  match v with
  | JStr s => String.eqb s "disk"
  | JArr (x :: nil) => loose_eq_disk x
  | _ => false
  end.

End Json.
Import Json.

(** ** Configuration ([app.js], lines 40-62 and 127) *)

Module Config.

(** A configuration object: its own properties. *)
Abbreviation object := (gmap string json).

Definition defaults : object :=
  {[ "port" := JNum 4000;
     "address" := JStr "localhost";
     "hostname" := JStr "localhost";
     "driver" := JStr "disk";
     "name" := JStr "Open Farm Game";
     "description" := JStr "The social game that brings the excitement of subsistence farming to the social internet." ]}.

(** [_.defaults(obj, source)]: every property of [source] that is undefined
    in [obj] is filled in; a property [obj] already has is kept.  On finite
    maps this is the left-biased union. *)
Definition underscore_defaults (obj source : object) : object := obj ∪ source.

(** [_.has(obj, key)] *)
Definition underscore_has (obj : object) (key : string) : bool :=
  bool_decide (is_Some (obj !! key)).

(** Lines 49-54.  [file] is [None] when [/etc/openfarmgame.json] does not
    exist, and otherwise the object [JSON.parse] reads from it. *)
Definition load_config (file : option object) : object :=
  match file with
  | Some parsed => underscore_defaults parsed defaults
  | None => defaults
  end.

Definition disk_params : json := JObj [("dir", JStr "/var/lib/openfarmgame/")].

(** Lines 56-62. *)
Definition fill_params (config : object) : object :=
  if negb (truthy (config !! "params")) then
    if match config !! "driver" with Some d => loose_eq_disk d | None => false end
    then <["params" := disk_params]> config
    else <["params" := JObj []]> config
  else config.

Definition config_of (file : option object) : object :=
  fill_params (load_config file).

(** The data directory of the configuration: [config.params.dir]. *)
Definition params_dir (config : object) : jsval :=
  match config !! "params" with
  | Some (JObj fields) => snd <$> List.find (fun kv => String.eqb (fst kv) "dir") fields
  | _ => None
  end.

(** Line 127: the [secret] option handed to [express.session]. *)
Definition session_secret (config : object) : jsval :=
  if underscore_has config "sessionSecret"
  then config !! "sessionSecret"
  else Some (JStr "insecure").

End Config.

(** ** The databank schema ([app.js], lines 64-82) *)

Module Schema.
Import Config.

(** A model class of [./models], as far as [app.js] reads it: [Cls.type]
    and [Cls.schema]. *)
Record ModelClass : Type := mkClass { cls_type : string; cls_schema : json }.

(** [_.extend(dest, source)]: every property of [source] is copied into
    [dest], over a property [dest] already has. *)
Definition underscore_extend (dest source : object) : object := source ∪ dest.

(** Line 76: [config.params.schema[Cls.type] = Cls.schema]. *)
Definition register (schema : object) (Cls : ModelClass) : object :=
  <[cls_type Cls := cls_schema Cls]> schema.

Section Build.

(** The schemas of the collaborators: [DialbackClient.schema],
    [DatabankStore.schema], the global lists [Farmer.schema] and
    [CropType.schema], and the four model classes. *)
Variables DialbackClient_schema DatabankStore_schema : object.
Variables Farmer_schema CropType_schema : object.
Variables RequestToken Host Plot Crop : ModelClass.

(** Lines 66-82.  [configured] is the object [config.params.schema] of the
    configuration, [None] when [!config.params.schema]. *)
Definition build_schema (configured : option object) : object :=
  let schema := default ∅ configured in
  let schema := underscore_extend schema DialbackClient_schema in
  let schema := underscore_extend schema DatabankStore_schema in
  let schema := foldl register schema [RequestToken; Host; Plot; Crop] in
  let schema := underscore_extend schema Farmer_schema in
  underscore_extend schema CropType_schema.

End Build.

End Schema.

(** ** The Express application ([app.js], lines 141-248) *)

Module Express.

(** What is handed to [next(err)]: an [Error] built in [app.js], a
    [TypeError] thrown by a property read on [null] (Express catches what a
    middleware throws and passes it on), or whatever error the databank
    reports. *)
Inductive JsError : Type :=
| Error (message : string)
| TypeError (message : string)
| DatabankError (name message : string).

(** The documents read from the databank, with the fields [app.js] uses. *)
Record Farmer : Type := mkFarmer { farmer_id : string }.
Record Plot : Type := mkPlot { plot_uuid : string; plot_owner : string; plot_crop : option string }.
Record Crop : Type := mkCrop { crop_uuid : string; crop_plot : string }.

(** The request and response as the middleware sees them:
    [req.session.farmerID], [req.params], [req.user], [req.plot],
    [req.crop] and [res.local("user")]. *)
Record Ctx : Type := mkCtx {
  session_farmerID : option string;
  req_params : gmap string string;
  req_user : option Farmer;
  req_plot : option Plot;
  req_crop : option Crop;
  res_local_user : option Farmer
}.

Inductive MwResult : Type :=
| Next (ctx : Ctx)
| Fail (err : JsError).

Inductive Method : Type := GET | POST.

Inductive Segment : Type :=
| Lit (s : string)
| Param (name : string).

(** The handlers of [./routes]. *)
Inductive HandlerName : Type :=
| routes_index | routes_login | routes_handleLogin | routes_handleLogout
| routes_about | routes_authorized | routes_farmer | routes_plot | routes_crop
| routes_plant | routes_handlePlant | routes_tearUp | routes_handleTearUp
| routes_water | routes_handleWater | routes_harvest | routes_handleHarvest
| routes_buyPlot | routes_handleBuyPlot | routes_hostmeta.

Inductive Outcome (Response : Type) : Type :=
| Handled (r : Response)
| Errored (err : JsError)
| NoRoute.
Arguments Handled {Response} r.
Arguments Errored {Response} err.
Arguments NoRoute {Response}.

Record Request : Type := mkRequest {
  rq_method : Method;
  rq_path : list string;
  rq_farmerID : option string
}.

(** [!req.session.farmerID]: the property is missing or the empty string. *)
Definition no_session_farmer (fid : option string) : bool :=
  match fid with
  | None => true
  | Some s => String.eqb s ""
  end.

Definition Method_eqb (a b : Method) : bool :=
  match a, b with
  | GET, GET | POST, POST => true
  | _, _ => false
  end.

(** A route pattern against the segments of a request path; each [:name]
    binds one non-empty segment. *)
Fixpoint match_path (pat : list Segment) (path : list string)
    (params : gmap string string) : option (gmap string string) :=
  match pat, path with
  | [], [] => Some params
  | Lit s :: pat', seg :: path' =>
      if String.eqb s seg then match_path pat' path' params else None
  | Param name :: pat', seg :: path' =>
      if String.eqb seg "" then None
      else match_path pat' path' (<[name := seg]> params)
  | _, _ => None
  end.

Section App.

Context {World Response : Type}.

(** [Farmer.get], [Plot.get] and [Crop.get] of the models, and the handlers
    of [./routes]: collaborators of [app.js]. *)
Variable Farmer_get : string -> World -> JsError + Farmer.
Variable Plot_get : option string -> World -> JsError + Plot.
Variable Crop_get : option string -> World -> JsError + Crop.
Variable routes : HandlerName -> Ctx -> World -> World * Response.

Definition Middleware : Type := Ctx -> World -> MwResult.

Definition set_user (ctx : Ctx) (u : option Farmer) : Ctx :=
  {| session_farmerID := session_farmerID ctx;
     req_params := req_params ctx;
     req_user := u;
     req_plot := req_plot ctx;
     req_crop := req_crop ctx;
     res_local_user := u |}.

Definition set_plot (ctx : Ctx) (p : Plot) : Ctx :=
  {| session_farmerID := session_farmerID ctx;
     req_params := req_params ctx;
     req_user := req_user ctx;
     req_plot := Some p;
     req_crop := req_crop ctx;
     res_local_user := res_local_user ctx |}.

Definition set_crop (ctx : Ctx) (c : Crop) : Ctx :=
  {| session_farmerID := session_farmerID ctx;
     req_params := req_params ctx;
     req_user := req_user ctx;
     req_plot := req_plot ctx;
     req_crop := Some c;
     res_local_user := res_local_user ctx |}.

Definition userAuth : Middleware := fun ctx w =>
  let ctx := set_user ctx None in
  match session_farmerID ctx with
  | None => Next ctx
  | Some fid =>
      if no_session_farmer (Some fid) then Next ctx
      else match Farmer_get fid w with
           | inl err => Fail err
           | inr farmer => Next (set_user ctx (Some farmer))
           end
  end.

Definition userOptional : Middleware := fun ctx _ => Next ctx.

Definition userRequired : Middleware := fun ctx _ =>
  match req_user ctx with
  | None => Fail (Error "User is required")
  | Some _ => Next ctx
  end.

Definition noUser : Middleware := fun ctx _ =>
  match req_user ctx with
  | Some _ => Fail (Error "Already logged in")
  | None => Next ctx
  end.

Definition userIsFarmer : Middleware := fun ctx _ =>
  match req_params ctx !! "webfinger" with
  | None => Fail (Error "Must be the same farmer")
  | Some wf =>
      if String.eqb wf "" then Fail (Error "Must be the same farmer")
      else match req_user ctx with
           | None => Fail (TypeError "Cannot read property 'id' of null")
           | Some u =>
               if String.eqb (farmer_id u) wf then Next ctx
               else Fail (Error "Must be the same farmer")
           end
  end.

Definition reqPlot : Middleware := fun ctx w =>
  match Plot_get (req_params ctx !! "plot") w with
  | inl err => Fail err
  | inr p => Next (set_plot ctx p)
  end.

Definition reqCrop : Middleware := fun ctx w =>
  match Crop_get (req_params ctx !! "crop") w with
  | inl err => Fail err
  | inr c => Next (set_crop ctx c)
  end.

Definition userIsOwner : Middleware := fun ctx _ =>
  match req_user ctx with
  | None => Fail (TypeError "Cannot read property 'id' of null")
  | Some u =>
      match req_plot ctx with
      | None => Fail (TypeError "Cannot read property 'owner' of undefined")
      | Some p =>
          if String.eqb (farmer_id u) (plot_owner p) then Next ctx
          else Fail (Error "Must be the owner")
      end
  end.

Record Route : Type := mkRoute {
  r_method : Method;
  r_path : list Segment;
  r_middleware : list Middleware;
  r_handler : HandlerName
}.

(** Lines 229-248, in the order of registration. *)
Definition route_table : list Route :=
  [ mkRoute GET [] [userAuth; userOptional] routes_index;
    mkRoute GET [Lit "login"] [userAuth; noUser] routes_login;
    mkRoute POST [Lit "login"] [userAuth; noUser] routes_handleLogin;
    mkRoute POST [Lit "logout"] [userAuth; userRequired] routes_handleLogout;
    mkRoute GET [Lit "about"] [userAuth; userOptional] routes_about;
    mkRoute GET [Lit "authorized"; Param "hostname"] [] routes_authorized;
    mkRoute GET [Lit "farmer"; Param "webfinger"] [userAuth; userOptional] routes_farmer;
    mkRoute GET [Lit "plot"; Param "plot"] [userAuth; userOptional; reqPlot] routes_plot;
    mkRoute GET [Lit "crop"; Param "crop"] [userAuth; userOptional; reqCrop] routes_crop;
    mkRoute GET [Lit "plot"; Param "plot"; Lit "plant"] [userAuth; userRequired; reqPlot; userIsOwner] routes_plant;
    mkRoute POST [Lit "plot"; Param "plot"; Lit "plant"] [userAuth; userRequired; reqPlot; userIsOwner] routes_handlePlant;
    mkRoute GET [Lit "plot"; Param "plot"; Lit "tearup"] [userAuth; userRequired; reqPlot; userIsOwner] routes_tearUp;
    mkRoute POST [Lit "plot"; Param "plot"; Lit "tearup"] [userAuth; userRequired; reqPlot; userIsOwner] routes_handleTearUp;
    mkRoute GET [Lit "plot"; Param "plot"; Lit "water"] [userAuth; userRequired; reqPlot; userIsOwner] routes_water;
    mkRoute POST [Lit "plot"; Param "plot"; Lit "water"] [userAuth; userRequired; reqPlot; userIsOwner] routes_handleWater;
    mkRoute GET [Lit "plot"; Param "plot"; Lit "harvest"] [userAuth; userRequired; reqPlot; userIsOwner] routes_harvest;
    mkRoute POST [Lit "plot"; Param "plot"; Lit "harvest"] [userAuth; userRequired; reqPlot; userIsOwner] routes_handleHarvest;
    mkRoute GET [Lit "buy-plot"] [userAuth; userRequired] routes_buyPlot;
    mkRoute POST [Lit "buy-plot"] [userAuth; userRequired] routes_handleBuyPlot;
    mkRoute GET [Lit ".well-known"; Lit "host-meta.json"] [] routes_hostmeta ].

(** The first registered route of the request's method whose pattern
    matches its path, with the parameters it binds. *)
Fixpoint dispatch (table : list Route) (m : Method) (path : list string)
    : option (Route * gmap string string) :=
  match table with
  | [] => None
  | r :: table' =>
      if Method_eqb (r_method r) m then
        match match_path (r_path r) path ∅ with
        | Some params => Some (r, params)
        | None => dispatch table' m path
        end
      else dispatch table' m path
  end.

(** A chain of middleware in front of a handler: [next()] moves on,
    [next(err)] leaves the chain for the error handler. *)
Fixpoint run_chain (mws : list Middleware) (h : Ctx -> World -> World * Response)
    (ctx : Ctx) (w : World) : World * Outcome Response :=
  match mws with
  | [] => let '(w', r) := h ctx w in (w', Handled r)
  | mw :: rest =>
      match mw ctx w with
      | Next ctx' => run_chain rest h ctx' w
      | Fail err => (w, Errored err)
      end
  end.

Definition initial_ctx (rq : Request) (params : gmap string string) : Ctx :=
  {| session_farmerID := rq_farmerID rq;
     req_params := params;
     req_user := None;
     req_plot := None;
     req_crop := None;
     res_local_user := None |}.

Definition handle_request (rq : Request) (w : World) : World * Outcome Response :=
  match dispatch route_table (rq_method rq) (rq_path rq) with
  | None => (w, NoRoute)
  | Some (r, params) =>
      run_chain (r_middleware r) (routes (r_handler r)) (initial_ctx rq params) w
  end.

End App.

(** The handlers that change a plot, a crop or the session of a farmer:
    logout, plant, tear up, water, harvest and buy a plot. *)
Definition mutating (h : HandlerName) : bool :=
  match h with
  | routes_handleLogout | routes_handlePlant | routes_handleTearUp
  | routes_handleWater | routes_handleHarvest | routes_handleBuyPlot => true
  | _ => false
  end.

(** The handlers of the water, harvest and tear-up requests, form and
    submission. *)
Definition crop_operation (h : HandlerName) : bool :=
  match h with
  | routes_water | routes_handleWater | routes_harvest | routes_handleHarvest
  | routes_tearUp | routes_handleTearUp => true
  | _ => false
  end.

(** An in-memory databank and handlers to run the application on: [get]
    reports [NoSuchThingError] for a missing document, and every handler
    clears the crop of the request's plot. *)
Record Bank : Type := mkBank {
  farmers : gmap string Farmer;
  plots : gmap string Plot;
  crops : gmap string Crop
}.

Definition bank_get {A : Type} (type : string) (docs : gmap string A)
    (id : option string) : JsError + A :=
  match id with
  | None => inl (DatabankError "NoSuchThingError" type)
  | Some i =>
      match docs !! i with
      | Some doc => inr doc
      | None => inl (DatabankError "NoSuchThingError" type)
      end
  end.

Definition mem_Farmer_get (id : string) (b : Bank) : JsError + Farmer :=
  bank_get "farmer" (farmers b) (Some id).

Definition mem_Plot_get (id : option string) (b : Bank) : JsError + Plot :=
  bank_get "plot" (plots b) id.

Definition mem_Crop_get (id : option string) (b : Bank) : JsError + Crop :=
  bank_get "crop" (crops b) id.

Definition mem_routes (h : HandlerName) (ctx : Ctx) (b : Bank) : Bank * string :=
  match req_plot ctx with
  | Some p =>
      ({| farmers := farmers b;
          plots := <[plot_uuid p := mkPlot (plot_uuid p) (plot_owner p) None]> (plots b);
          crops := crops b |}, "done")
  | None => (b, "done")
  end.

Definition mem_handle_request : Request -> Bank -> Bank * Outcome string :=
  handle_request mem_Farmer_get mem_Plot_get mem_Crop_get mem_routes.

(** Alice owns plot [p1], where crop [c1] grows; Bob owns nothing. *)
Definition bank0 : Bank :=
  {| farmers := {[ "alice@farm.example" := mkFarmer "alice@farm.example";
                   "bob@farm.example" := mkFarmer "bob@farm.example" ]};
     plots := {[ "p1" := mkPlot "p1" "alice@farm.example" (Some "c1") ]};
     crops := {[ "c1" := mkCrop "c1" "p1" ]} |}.

(** The context a chain of middleware hands to the handler behind it, or
    the error that ends the chain. *)
Fixpoint chain_ctx {World : Type} (mws : list (Ctx -> World -> MwResult))
    (ctx : Ctx) (w : World) : JsError + Ctx :=
  match mws with
  | [] => inr ctx
  | mw :: rest =>
      match mw ctx w with
      | Next ctx' => chain_ctx rest ctx' w
      | Fail err => inl err
      end
  end.

(** The handlers registered behind [userIsOwner] (lines 238-245). *)
Definition owner_only (h : HandlerName) : bool :=
  match h with
  | routes_plant | routes_handlePlant | routes_tearUp | routes_handleTearUp
  | routes_water | routes_handleWater | routes_harvest | routes_handleHarvest => true
  | _ => false
  end.

(** The handlers registered behind [userRequired] (lines 232, 238-247). *)
Definition user_required (h : HandlerName) : bool :=
  match h with
  | routes_handleLogout | routes_buyPlot | routes_handleBuyPlot => true
  | _ => owner_only h
  end.

(** The handlers registered behind [noUser] (lines 230-231). *)
Definition no_user (h : HandlerName) : bool :=
  match h with
  | routes_login | routes_handleLogin => true
  | _ => false
  end.

(** The handlers registered without any middleware (lines 234 and 248). *)
Definition unguarded (h : HandlerName) : bool :=
  match h with
  | routes_authorized | routes_hostmeta => true
  | _ => false
  end.

(** The handlers registered behind [reqPlot] (lines 236, 238-245). *)
Definition plot_route (h : HandlerName) : bool :=
  match h with
  | routes_plot => true
  | _ => owner_only h
  end.

(** The handlers an anonymous visitor reaches without a databank read:
    those behind [userOptional] or [noUser] alone, and the unguarded
    ones. *)
Definition open_page (h : HandlerName) : bool :=
  match h with
  | routes_index | routes_about | routes_farmer => true
  | _ => no_user h || unguarded h
  end.

(** Who [userAuth] finds behind a request: nobody when the session names no
    farmer, and the farmer [Farmer.get] loads for the one it names. *)
Definition visitor {World : Type} (Farmer_get : string -> World -> JsError + Farmer)
    (rq : Request) (w : World) (u : option Farmer) : Prop :=
  match u with
  | None => no_session_farmer (rq_farmerID rq) = true
  | Some f =>
      exists fid, rq_farmerID rq = Some fid /\
                  no_session_farmer (Some fid) = false /\
                  Farmer_get fid w = inr f
  end.

(** Lines 121-131: the stack of [app.configure].  [express.methodOverride()]
    (line 126) runs in front of [app.router] (line 129) and may replace
    [req.method], from a field of the body or a header of the request; it is
    a collaborator of [app.js].  [methodOverride rq] is the method with
    which the request reaches the router, [None] when it is a method no
    route is registered for.  [routed] is the route the router picks. *)
Definition routed {World : Type}
    (Farmer_get : string -> World -> JsError + Farmer)
    (Plot_get : option string -> World -> JsError + Plot)
    (Crop_get : option string -> World -> JsError + Crop)
    (methodOverride : Request -> option Method) (rq : Request)
    : option (@Route World * gmap string string) :=
  match methodOverride rq with
  | None => None
  | Some m => dispatch (route_table Farmer_get Plot_get Crop_get) m (rq_path rq)
  end.

(** A request through the stack: the method override, then the router with
    the chain and the handler of the route it picks. *)
Definition serve {World Response : Type}
    (Farmer_get : string -> World -> JsError + Farmer)
    (Plot_get : option string -> World -> JsError + Plot)
    (Crop_get : option string -> World -> JsError + Crop)
    (routes : HandlerName -> Ctx -> World -> World * Response)
    (methodOverride : Request -> option Method)
    (rq : Request) (w : World) : World * Outcome Response :=
  match routed Farmer_get Plot_get Crop_get methodOverride rq with
  | None => (w, NoRoute)
  | Some (r, params) =>
      run_chain (r_middleware r) (routes (r_handler r)) (initial_ctx rq params) w
  end.

(** A client that sends every request with an override to POST. *)
Definition header_override_post (rq : Request) : option Method := Some POST.

End Express.

(** ** Start-up ([app.js], lines 84-311) *)

Module Startup.
Import Config.
Import Express.

(** How an asynchronous collaborator answers the callback it was given. *)
Inductive Callback : Type :=
| CbOk
| CbErr (e : JsError)
| CbNever.

(** The behaviour of the collaborators during one start of the process:
    [db.connect], [CropType.initialData], [fs.readFileSync] on the key and
    certificate ([None]: it returns), [app.updater.start()] ([None]: it
    returns) and [app.listen]. *)
Record Env : Type := mkEnv {
  db_connect : Callback;
  CropType_initialData : Callback;
  readFileSync_key : option JsError;
  updater_start : option JsError;
  app_listen : Callback
}.

(** The calls [app.js] makes on its collaborators, in order. *)
Inductive Event : Type :=
| EvConnect
| EvSetBank
| EvInitialData
| EvCreateServer (https : bool)
| EvCreateBounce
| EvConfigure (secret : jsval)
| EvRoutes
| EvDialbackClient
| EvNotifier
| EvUpdaterNew
| EvUpdaterStart
| EvListen (port address : jsval)
| EvBounceListen (address : jsval)
| EvLogListening.

(** How a task of the waterfall ends: it calls its callback without or with
    an error, never calls it, or throws. *)
Inductive TaskEnd : Type :=
| Called (err : option JsError)
| NotCalled
| Threw (e : JsError).

Definition Task : Type := list Event * TaskEnd.

Definition task_end (cb : Callback) : TaskEnd :=
  match cb with
  | CbOk => Called None
  | CbErr e => Called (Some e)
  | CbNever => NotCalled
  end.

(** [async.waterfall(tasks, final)]: the tasks run one after the other, each
    when the one before has called back without an error; the first error
    goes to [final] and skips the rest. *)
Fixpoint waterfall (tasks : list Task) (final : list Event) : list Event :=
  match tasks with
  | [] => final
  | (evs, e) :: rest =>
      evs ++ match e with
             | Called None => waterfall rest final
             | Called (Some _) => final
             | NotCalled => []
             | Threw _ => []
             end
  end.

(** Lines 87-89. *)
Definition task_connect (env : Env) : Task :=
  ([EvConnect], task_end (db_connect env)).

(** Lines 90-99. *)
Definition task_seed (env : Env) : Task :=
  ([EvSetBank; EvInitialData], task_end (CropType_initialData env)).

(** Lines 100-308. *)
Definition task_serve (config : object) (env : Env) : Task :=
  let https := underscore_has config "key" in
  match (if https then readFileSync_key env else None) with
  | Some e => ([], Threw e)
  | None =>
      let setup :=
        [EvCreateServer https] ++ (if https then [EvCreateBounce] else []) ++
        [EvConfigure (session_secret config); EvRoutes; EvDialbackClient;
         EvNotifier; EvUpdaterNew; EvUpdaterStart] in
      match updater_start env with
      | Some e => (setup, Threw e)
      | None =>
          (setup ++ [EvListen (config !! "port") (config !! "address")] ++
           (if https then [EvBounceListen (config !! "address")] else []),
           task_end (app_listen env))
      end
  end.

(** Lines 86 and 309-311. *)
Definition startup (config : object) (env : Env) : list Event :=
  waterfall [task_connect env; task_seed env; task_serve config env]
            [EvLogListening].

(** The four steps of the initialization order. *)
Definition is_step (e : Event) : bool :=
  match e with
  | EvConnect | EvInitialData | EvUpdaterStart | EvListen _ _ => true
  | _ => false
  end.

Definition steps (trace : list Event) : list Event := List.filter is_step trace.

Definition all_ok (env : Env) : Prop :=
  db_connect env = CbOk /\ CropType_initialData env = CbOk /\
  readFileSync_key env = None /\ updater_start env = None.

End Startup.

(** ** The simulation core

    [app.js] requires [./models/crop], [./models/croptype] and
    [./lib/updater] and only calls [CropType.initialData] and
    [app.updater.start()] on them.  Their behaviour is taken from the
    specification (sections 3, 4 and 7). *)

Module Simulation.

(** Modelled from the spec: the lifecycle phases of a crop of
    [models/crop] (section 3, Crop invariants). *)
Inductive Phase : Type := Growing | NeedsWater | ReadyToHarvest | Withered.

#[global] Instance Phase_eq_dec : EqDecision Phase.
Proof. solve_decision. Defined.

(** Modelled from the spec: the attributes of a CropType of
    [models/croptype] (section 3); durations are in seconds. *)
Record CropType : Type := mkCropType {
  ct_id : string;
  ct_name : string;
  growthDuration : Z;
  wateringInterval : Z;
  witheringGrace : Z;
  ct_yield : Z
}.

(** Modelled from the spec: the attributes of a Crop of [models/crop]
    (section 3); [reminded] is the dedup flag of the need-water reminder. *)
Record Crop : Type := mkCrop {
  crop_id : string;
  cropType : CropType;
  crop_plot : string;
  crop_owner : string;
  planted : Z;
  lastWatered : Z;
  phase : Phase;
  reminded : bool
}.

(** Modelled from the spec: the error kinds of section 7. *)
Inductive ErrorKind : Type :=
| NotFoundError | InvalidStateError | OwnershipError | ConflictError.

(** Modelled from the spec: the notification trigger of section 6,
    [(farmerId, eventKind, cropId)]. *)
Inductive EventKind : Type := ready | withered | needsWater.

(** Modelled from the spec: a trigger call on the Notifier of
    [lib/notifier] (section 6). *)
Record Notification : Type := mkNotification {
  n_farmer : string;
  n_kind : EventKind;
  n_crop : string
}.

(** Modelled from the spec: the derived deadlines of a crop of
    [models/crop] (section 3). *)
Definition maturityDeadline (c : Crop) : Z :=
  planted c + growthDuration (cropType c).

(** Modelled from the spec: the start of the watering-due window of a crop
    of [models/crop] (section 4.1, rule 4). *)
Definition wateringDue (c : Crop) : Z :=
  lastWatered c + wateringInterval (cropType c).

(** Modelled from the spec: the withering deadline of a crop of
    [models/crop] (section 3): the grace period stacks after the watering
    interval (section 9). *)
Definition witheringDeadline (c : Crop) : Z :=
  lastWatered c + wateringInterval (cropType c) + witheringGrace (cropType c).

(** Modelled from the spec: the terminal phases of a crop of [models/crop]
    (section 4.1). *)
Definition terminal (p : Phase) : bool :=
  match p with
  | ReadyToHarvest | Withered => true
  | Growing | NeedsWater => false
  end.

(** Modelled from the spec: a transition of a crop of [models/crop]
    changes its phase and its dedup flag and nothing else. *)
Definition set_phase (c : Crop) (p : Phase) (r : bool) : Crop :=
  {| crop_id := crop_id c; cropType := cropType c; crop_plot := crop_plot c;
     crop_owner := crop_owner c; planted := planted c;
     lastWatered := lastWatered c; phase := p; reminded := r |}.

(** Modelled from the spec: the notification of an event of a crop of
    [models/crop] goes to the farmer who owns it (section 6). *)
Definition notify (c : Crop) (k : EventKind) : Notification :=
  {| n_farmer := crop_owner c; n_kind := k; n_crop := crop_id c |}.

(** Modelled from the spec: the transition rule of the crop state machine
    of [models/crop], rules 1 to 5 of section 4.1, as the function
    [reconcile(crop, now) -> (newPhase, events)] of section 9. *)
Definition reconcile (c : Crop) (now : Z) : Crop * list Notification :=
  if terminal (phase c) then (c, [])
  else if (maturityDeadline c <=? now)%Z then
    (set_phase c ReadyToHarvest (reminded c), [notify c ready])
  else if (witheringDeadline c <=? now)%Z then
    (set_phase c Withered (reminded c), [notify c withered])
  else if (wateringDue c <=? now)%Z then
    (set_phase c NeedsWater true,
     if reminded c then [] else [notify c needsWater])
  else (set_phase c Growing (reminded c), []).

(** Modelled from the spec: the phase that rules 2 to 5 of section 4.1
    give a crop of [models/crop] that is not terminal, a function of its
    deadlines alone. *)
Definition phase_at (c : Crop) (now : Z) : Phase :=
  if (maturityDeadline c <=? now)%Z then ReadyToHarvest
  else if (witheringDeadline c <=? now)%Z then Withered
  else if (wateringDue c <=? now)%Z then NeedsWater
  else Growing.

(** Modelled from the spec: the watering operation of [models/crop]
    (section 4.1), on a crop reconciled against [now]. *)
Definition water (c : Crop) (farmer : string) (now : Z) : ErrorKind + Crop :=
  if negb (String.eqb farmer (crop_owner c)) then inl OwnershipError
  else
    let c' := fst (reconcile c now) in
    if terminal (phase c') then inl InvalidStateError
    else inr {| crop_id := crop_id c'; cropType := cropType c';
                crop_plot := crop_plot c'; crop_owner := crop_owner c';
                planted := planted c'; lastWatered := now;
                phase := Growing; reminded := false |}.

(** Modelled from the spec: the harvest operation of [models/crop]
    (section 4.1); on success the crop leaves its plot and the farmer is
    credited with the yield, which is the value returned. *)
Definition harvest (c : Crop) (farmer : string) (now : Z) : ErrorKind + Z :=
  if negb (String.eqb farmer (crop_owner c)) then inl OwnershipError
  else
    match phase (fst (reconcile c now)) with
    | ReadyToHarvest => inr (ct_yield (cropType c))
    | _ => inl InvalidStateError
    end.

(** Modelled from the spec: the tear-up operation of [models/crop]
    (section 4.1): the crop is non-terminal or withered; it leaves its plot
    without reward. *)
Definition tearUp (c : Crop) (farmer : string) (now : Z) : ErrorKind + unit :=
  if negb (String.eqb farmer (crop_owner c)) then inl OwnershipError
  else
    match phase (fst (reconcile c now)) with
    | ReadyToHarvest => inl InvalidStateError
    | _ => inr tt
    end.

(** Modelled from the spec: everything that can happen to a planted crop
    (sections 4.1 and 4.2): a sweep of the Update Engine, or a request of a
    farmer. *)
Inductive Action : Type :=
| Sweep (now : Z)
| Water (farmer : string) (now : Z)
| Harvest (farmer : string) (now : Z)
| TearUp (farmer : string) (now : Z).

(** Modelled from the spec: the effect of an action on a planted crop of
    [models/crop]; [Some c'] is the crop still on its plot, [None] a crop
    detached from it. *)
Definition act (a : Action) (c : Crop) : ErrorKind + option Crop :=
  match a with
  | Sweep now => inr (Some (fst (reconcile c now)))
  | Water farmer now =>
      match water c farmer now with
      | inl e => inl e
      | inr c' => inr (Some c')
      end
  | Harvest farmer now =>
      match harvest c farmer now with
      | inl e => inl e
      | inr _ => inr None
      end
  | TearUp farmer now =>
      match tearUp c farmer now with
      | inl e => inl e
      | inr _ => inr None
      end
  end.

(** Modelled from the spec: the automatic, time-driven transitions of a
    crop of [models/crop] (section 4.2), one for each sweep that reaches
    it, as a step relation. *)
Inductive auto_step : Crop -> Crop -> Prop :=
| auto_step_intro (c : Crop) (now : Z) : auto_step c (fst (reconcile c now)).

(** Any number of automatic transitions in a row. *)
Inductive auto_steps : Crop -> Crop -> Prop :=
| auto_refl (c : Crop) : auto_steps c c
| auto_next (c1 c2 c3 : Crop) :
    auto_step c1 c2 -> auto_steps c2 c3 -> auto_steps c1 c3.

(** The Carrot of the scenarios of section 8, planted at [t = 0]. *)
Definition Carrot : CropType :=
  {| ct_id := "carrot"; ct_name := "Carrot"; growthDuration := 60;
     wateringInterval := 30; witheringGrace := 10; ct_yield := 1 |}.

Definition carrot0 : Crop :=
  {| crop_id := "crop-1"; cropType := Carrot; crop_plot := "plot-1";
     crop_owner := "alice@farm.example"; planted := 0; lastWatered := 0;
     phase := Growing; reminded := false |}.

End Simulation.

(** ** The CropType registry *)

Module Registry.
Import Simulation.

Abbreviation catalog := (gmap string CropType).

(** Modelled from the spec: inserting the seed list into the catalog of
    [models/croptype] (section 4.3), each CropType under its identifier. *)
Definition insert_seeds (seeds : list CropType) (cat : catalog) : catalog :=
  foldr (fun ct m => <[ct_id ct := ct]> m) cat seeds.

(** Modelled from the spec: the operation [ensureInitialData] of
    [models/croptype] (section 4.3), which [app.js] calls as
    [CropType.initialData]: it checks whether the catalog is populated and,
    if it is empty, inserts the fixed seed list. *)
Definition ensureInitialData (seeds : list CropType) (cat : catalog) : catalog :=
  if decide (cat = ∅) then insert_seeds seeds cat else cat.

(** Modelled from the spec: the read accessor of [models/croptype]
    (section 4.3). *)
Definition getCropType (cat : catalog) (id : string) : ErrorKind + CropType :=
  match cat !! id with
  | Some ct => inr ct
  | None => inl NotFoundError
  end.

End Registry.

(** ** The Update Engine *)

Module Updater.
Import Simulation.

Abbreviation crops := (gmap string Crop).

(** Modelled from the spec: the failures of the persistence collaborator
    during one sweep of [lib/updater] (sections 6 and 7): the active-crop
    query fails, [get] of a crop fails, or [save] of a crop loses a race. *)
Record Faults : Type := mkFaults {
  query_fails : bool;
  get_fails : string -> bool;
  save_fails : string -> bool
}.

(** Modelled from the spec: what a sweep of [lib/updater] logs (section
    7): a crop skipped after an error, or the sweep aborted. *)
Inductive LogEntry : Type :=
| LogCropSkipped (id : string) (e : ErrorKind)
| LogSweepAborted.

(** Modelled from the spec: what the Update Engine of [lib/updater] works
    on: the persisted crops, its log, the notifications queued for the
    Notifier, and the crops it has taken up so far. *)
Record Engine : Type := mkEngine {
  store : crops;
  log : list LogEntry;
  outbox : list Notification;
  visited : list string
}.

(** Modelled from the spec: the working set of a sweep of [lib/updater]
    (section 4.2): the crops that are persisted; a harvested or torn-up crop
    is no longer among them. *)
Definition working_set (s : crops) : list string := (map_to_list s).*1.


(** Modelled from the spec: one crop of a sweep of [lib/updater] (sections
    4.2 and 7): a crop that cannot be read or written is logged and
    skipped; a transition is persisted and its notification queued. *)
Definition sweep_crop (flt : Faults) (now : Z) (eng : Engine) (id : string) : Engine :=
  let seen := visited eng ++ [id] in
  match (if get_fails flt id then None else store eng !! id) with
  | None =>
      {| store := store eng; log := log eng ++ [LogCropSkipped id NotFoundError];
         outbox := outbox eng; visited := seen |}
  | Some c =>
      let '(c', evs) := reconcile c now in
      if decide (phase c' = phase c) then
        {| store := store eng; log := log eng; outbox := outbox eng;
           visited := seen |}
      else if save_fails flt id then
        {| store := store eng; log := log eng ++ [LogCropSkipped id ConflictError];
           outbox := outbox eng; visited := seen |}
      else
        {| store := <[id := c']> (store eng); log := log eng;
           outbox := outbox eng ++ evs; visited := seen |}
  end.

(** Modelled from the spec: one sweep of [lib/updater] (sections 4.2 and
    7): a failure of the active-crop query aborts it. *)
Definition sweep (flt : Faults) (now : Z) (eng : Engine) : Engine :=
  if query_fails flt then
    {| store := store eng; log := log eng ++ [LogSweepAborted];
       outbox := outbox eng; visited := visited eng |}
  else foldl (sweep_crop flt now) eng (working_set (store eng)).






(** A sweep during which the first crop cannot be read, and one whose
    query fails. *)
Definition first_crop_unreadable : Faults :=
  {| query_fails := false; get_fails := String.eqb "crop-1";
     save_fails := fun _ => false |}.


(** Two carrots planted at [t = 0]. *)
Definition carrot1 : Crop :=
  {| crop_id := "crop-2"; cropType := Carrot; crop_plot := "plot-2";
     crop_owner := "bob@farm.example"; planted := 0; lastWatered := 0;
     phase := Growing; reminded := false |}.

Definition engine0 : Engine :=
  {| store := {[ "crop-1" := carrot0; "crop-2" := carrot1 ]};
     log := []; outbox := []; visited := [] |}.

End Updater.

(** * Properties of the configuration *)

Section ConfigFacts.
Import Config.

Lemma defaults_lookup_params : defaults !! "params" = None.
Proof. reflexivity. Qed.

Lemma defaults_lookup_sessionSecret : defaults !! "sessionSecret" = None.
Proof. reflexivity. Qed.

Lemma load_config_present (parsed : object) (k : string) (v : json) :
  parsed !! k = Some v -> load_config (Some parsed) !! k = Some v.
Proof.
  intros Hk. unfold load_config, underscore_defaults.
  apply lookup_union_Some_l. exact Hk.
Qed.

Lemma load_config_absent (parsed : object) (k : string) :
  parsed !! k = None -> load_config (Some parsed) !! k = defaults !! k.
Proof.
  intros Hk. unfold load_config, underscore_defaults.
  apply lookup_union_r. exact Hk.
Qed.

Lemma fill_params_other (config : object) (k : string) :
  k <> "params" -> fill_params config !! k = config !! k.
Proof.
  intros Hk. unfold fill_params.
  repeat case_match; try reflexivity; rewrite lookup_insert_ne; congruence.
Qed.

Lemma fill_params_truthy (config : object) :
  truthy (config !! "params") = true -> fill_params config = config.
Proof. intros Ht. unfold fill_params. rewrite Ht. reflexivity. Qed.

Lemma fill_params_disk (config : object) :
  config !! "driver" = Some (JStr "disk") ->
  config !! "params" = None ->
  fill_params config !! "params" = Some disk_params.
Proof.
  intros Hd Hp. unfold fill_params. rewrite Hp, Hd. simpl.
  apply lookup_insert_eq.
Qed.

Lemma config_of_absent_file : config_of None = <["params" := disk_params]> defaults.
Proof. reflexivity. Qed.

Lemma load_config_driver (file : option object) :
  config_of file !! "driver" = load_config file !! "driver".
Proof. apply fill_params_other. discriminate. Qed.

Lemma load_config_params (file : option object) :
  load_config file !! "params" = from_option (fun parsed => parsed !! "params") None file.
Proof.
  destruct file as [parsed|]; simpl; [|reflexivity].
  unfold underscore_defaults. rewrite lookup_union.
  rewrite defaults_lookup_params. destruct (parsed !! "params"); reflexivity.
Qed.

Lemma params_dir_disk (config : object) :
  config !! "params" = Some disk_params ->
  params_dir config = Some (JStr "/var/lib/openfarmgame/").
Proof. intros H. unfold params_dir. rewrite H. reflexivity. Qed.

(** A [params] that the file sets to a falsy value gives the configuration
    of the same file without the key. *)
Lemma falsy_params_like_missing (parsed : object) (v : json) :
  parsed !! "params" = Some v ->
  truthy (Some v) = false ->
  config_of (Some parsed) = config_of (Some (delete "params" parsed)).
Proof.
  intros Hp Hv. unfold config_of, load_config, underscore_defaults, fill_params.
  rewrite (lookup_union_Some_l _ _ _ _ Hp), Hv.
  rewrite (lookup_union_r (delete "params" parsed) defaults "params")
    by apply lookup_delete_eq.
  rewrite defaults_lookup_params. cbn [truthy negb].
  assert (Hd : (delete "params" parsed ∪ defaults) !! "driver"
               = (parsed ∪ defaults) !! "driver").
  { rewrite !lookup_union, lookup_delete_ne by discriminate. reflexivity. }
  rewrite Hd.
  assert (Hins : forall x : json,
             <["params" := x]> (parsed ∪ defaults)
             = <["params" := x]> (delete "params" parsed ∪ defaults)).
  { intros x. apply map_eq. intros j.
    destruct (decide ("params" = j)) as [<-|Hne].
    - rewrite !lookup_insert_eq. reflexivity.
    - rewrite !lookup_insert_ne by exact Hne.
      rewrite !lookup_union, lookup_delete_ne by exact Hne. reflexivity. }
  destruct (match (parsed ∪ defaults) !! "driver" with
            | Some d => loose_eq_disk d
            | None => false
            end); apply Hins.
Qed.

(** C9, as amended: without a configuration file the application runs with
    port 4000, address and hostname "localhost" and driver "disk"; whenever
    the driver is "disk" and the file configures no params (or there is no
    file), the data directory is "/var/lib/openfarmgame/"; a key present in
    the file keeps the file's value, except a [params] whose value is falsy;
    a key absent from the file has the value of [defaults]; and a [params]
    that the file sets to a falsy value is treated like a missing one: the
    configuration is that of the file without the key. *)
Theorem config_defaults_and_overrides :
  (config_of None !! "port" = Some (JNum 4000) /\
   config_of None !! "address" = Some (JStr "localhost") /\
   config_of None !! "hostname" = Some (JStr "localhost") /\
   config_of None !! "driver" = Some (JStr "disk")) /\
  (forall file : option object,
     config_of file !! "driver" = Some (JStr "disk") ->
     from_option (fun parsed => parsed !! "params") None file = None ->
     params_dir (config_of file) = Some (JStr "/var/lib/openfarmgame/")) /\
  (forall (parsed : object) (k : string) (v : json),
     parsed !! k = Some v ->
     k <> "params" \/ truthy (Some v) = true ->
     config_of (Some parsed) !! k = Some v) /\
  (forall (parsed : object) (k : string),
     parsed !! k = None ->
     k <> "params" ->
     config_of (Some parsed) !! k = defaults !! k) /\
  (forall (parsed : object) (v : json),
     parsed !! "params" = Some v ->
     truthy (Some v) = false ->
     config_of (Some parsed) = config_of (Some (delete "params" parsed))).
Proof.
  split; [|split; [|split; [|split]]].
  - repeat split; reflexivity.
  - intros file Hd Hp. apply params_dir_disk.
    unfold config_of. apply fill_params_disk.
    + rewrite <- load_config_driver. exact Hd.
    + rewrite load_config_params. exact Hp.
  - intros parsed k v Hk Hor. unfold config_of.
    destruct (decide (k = "params")) as [->|Hne].
    + destruct Hor as [Hor|Ht]; [congruence|].
      rewrite fill_params_truthy.
      * apply load_config_present, Hk.
      * rewrite (load_config_present _ _ _ Hk). exact Ht.
    + rewrite fill_params_other by exact Hne.
      apply load_config_present, Hk.
  - intros parsed k Hk Hne. unfold config_of.
    rewrite fill_params_other by exact Hne.
    apply load_config_absent, Hk.
  - apply falsy_params_like_missing.
Qed.

(** C9, as stated, fails for [params]: the guard [!config.params] of line
    56 treats a [params] that the file sets to [null] like a missing one,
    and the data directory of the disk driver replaces it. *)
Lemma config_params_null_replaced :
  let file : object := {[ "params" := JNull ]} in
  file !! "params" = Some JNull /\
  config_of (Some file) !! "params" = Some disk_params /\
  ~ (forall (k : string) (v : json),
       file !! k = Some v -> config_of (Some file) !! k = Some v).
Proof.
  intros file. split; [reflexivity|]. split; [reflexivity|].
  intros Hall. specialize (Hall "params" JNull eq_refl).
  vm_compute in Hall. discriminate Hall.
Qed.

(** A file that only sets the port: the port is the file's, the driver is
    the default, and the data directory follows from it.  A file that sets
    [params] to [false], [0] or the empty string gets the data directory of
    a file without [params]. *)
Lemma config_defaults_and_overrides_witness :
  let file : object := {[ "port" := JNum 8080 ]} in
  config_of (Some file) !! "port" = Some (JNum 8080) /\
  config_of (Some file) !! "driver" = Some (JStr "disk") /\
  params_dir (config_of (Some file)) = Some (JStr "/var/lib/openfarmgame/") /\
  Forall (fun v : json =>
            params_dir (config_of (Some {[ "params" := v ]}))
            = Some (JStr "/var/lib/openfarmgame/"))
         [JBool false; JNum 0; JStr ""; JNull].
Proof.
  intros file.
  destruct config_defaults_and_overrides as (_ & Hdir & Hover & Hkeep & Hfalsy).
  split; [|split; [|split]].
  - apply Hover; [reflexivity | left; discriminate].
  - rewrite (Hkeep file "driver"); [reflexivity | reflexivity | discriminate].
  - apply (Hdir (Some file)); reflexivity.
  - repeat (apply List.Forall_cons;
            [erewrite Hfalsy by reflexivity; apply (Hdir (Some _)); reflexivity|]).
    apply List.Forall_nil.
Defined.

Lemma session_secret_value (config : object) :
  session_secret config
  = Some (default (JStr "insecure") (config !! "sessionSecret")).
Proof.
  unfold session_secret, underscore_has.
  destruct (config !! "sessionSecret") as [v|] eqn:Hs.
  - rewrite bool_decide_eq_true_2 by (eexists; reflexivity). reflexivity.
  - rewrite bool_decide_eq_false_2 by (intros [? ?]; discriminate). reflexivity.
Qed.

(** Whenever start-up gets as far as [app.configure], the secret handed to
    [express.session] is [session_secret config]. *)
Lemma startup_configure_secret (config : object) (env : Startup.Env)
    (secret : jsval) :
  In (Startup.EvConfigure secret) (Startup.startup config env) ->
  secret = session_secret config.
Proof.
  destruct env as [conn seed key upd lis].
  unfold Startup.startup, Startup.task_connect, Startup.task_seed,
    Startup.task_serve, Startup.task_end.
  cbn [Startup.db_connect Startup.CropType_initialData
       Startup.readFileSync_key Startup.updater_start Startup.app_listen].
  destruct conn as [|?|]; destruct seed as [|?|];
    destruct (underscore_has config "key");
    destruct key as [?|]; destruct upd as [?|]; destruct lis as [|?|];
    cbn [Startup.waterfall app In];
    intros Hin;
    repeat (destruct Hin as [Hin|Hin]; try discriminate Hin);
    try contradiction;
    injection Hin as <-; reflexivity.
Qed.

(** Start-up gets as far as [app.configure] when [db.connect] and
    [CropType.initialData] succeed and the key files, if a key is
    configured, can be read. *)
Lemma startup_reaches_configure (config : object) (env : Startup.Env) :
  Startup.db_connect env = Startup.CbOk ->
  Startup.CropType_initialData env = Startup.CbOk ->
  (underscore_has config "key" = true -> Startup.readFileSync_key env = None) ->
  In (Startup.EvConfigure (session_secret config)) (Startup.startup config env).
Proof.
  destruct env as [conn seed key upd lis].
  unfold Startup.startup, Startup.task_connect, Startup.task_seed,
    Startup.task_serve, Startup.task_end.
  cbn [Startup.db_connect Startup.CropType_initialData
       Startup.readFileSync_key Startup.updater_start Startup.app_listen].
  intros -> -> Hkey.
  destruct (underscore_has config "key");
    [rewrite (Hkey eq_refl)|];
    destruct upd as [?|]; cbn [Startup.waterfall app In]; auto 10.
Qed.

(** C10: the secret of the session is "insecure" when the configuration
    has no [sessionSecret] key, and the configured value exactly when it has
    one; and this is the secret with which [express.session] is initialized:
    whenever start-up gets as far as [app.configure] the secret handed over
    is that one, and it gets there whenever connect and seed succeed and the
    key files, if any, are read. *)
Theorem session_secret_fallback (config : object) :
  (config !! "sessionSecret" = None ->
   session_secret config = Some (JStr "insecure")) /\
  (forall v : json, config !! "sessionSecret" = Some v ->
   session_secret config = Some v) /\
  (session_secret config = config !! "sessionSecret" <->
   underscore_has config "sessionSecret" = true) /\
  (forall (env : Startup.Env) (secret : jsval),
     In (Startup.EvConfigure secret) (Startup.startup config env) ->
     secret = Some (default (JStr "insecure") (config !! "sessionSecret"))) /\
  (forall env : Startup.Env,
     Startup.db_connect env = Startup.CbOk ->
     Startup.CropType_initialData env = Startup.CbOk ->
     (underscore_has config "key" = true ->
      Startup.readFileSync_key env = None) ->
     In (Startup.EvConfigure
           (Some (default (JStr "insecure") (config !! "sessionSecret"))))
        (Startup.startup config env)).
Proof.
  split; [|split; [|split; [|split]]].
  - intros Hs. rewrite session_secret_value, Hs. reflexivity.
  - intros v Hs. rewrite session_secret_value, Hs. reflexivity.
  - rewrite session_secret_value. unfold underscore_has.
    destruct (config !! "sessionSecret") as [v|] eqn:Hs.
    + rewrite bool_decide_eq_true_2 by (eexists; reflexivity). tauto.
    + rewrite bool_decide_eq_false_2 by (intros [? ?]; discriminate).
      split; discriminate.
  - intros env secret Hin. rewrite <- session_secret_value.
    apply (startup_configure_secret config env), Hin.
  - intros env Hc Hs Hk. rewrite <- session_secret_value.
    apply startup_reaches_configure; assumption.
Qed.

Lemma session_secret_fallback_witness :
  let env := Startup.mkEnv Startup.CbOk Startup.CbOk None None Startup.CbOk in
  let configured := config_of (Some {[ "sessionSecret" := JStr "s3cret" ]}) in
  session_secret (config_of None) = Some (JStr "insecure") /\
  session_secret configured = Some (JStr "s3cret") /\
  In (Startup.EvConfigure (Some (JStr "insecure")))
     (Startup.startup (config_of None) env) /\
  In (Startup.EvConfigure (Some (JStr "s3cret")))
     (Startup.startup configured env) /\
  ~ In (Startup.EvConfigure (Some (JStr "insecure")))
       (Startup.startup configured env).
Proof.
  intros env configured.
  destruct (session_secret_fallback (config_of None))
    as (Hnone & _ & _ & _ & Hreach0).
  destruct (session_secret_fallback configured)
    as (_ & Hsome & _ & Honly & Hreach1).
  split; [apply Hnone; reflexivity|].
  split; [apply Hsome; reflexivity|].
  split; [apply (Hreach0 env); [reflexivity|reflexivity|discriminate]|].
  split; [apply (Hreach1 env); [reflexivity|reflexivity|discriminate]|].
  intros Hin. apply Honly in Hin. discriminate Hin.
Defined.

End ConfigFacts.

(** * Properties of the middleware chain *)

Section AppFacts.
Import Express.

Context {World Response : Type}.
Variable Farmer_get : string -> World -> JsError + Farmer.
Variable Plot_get : option string -> World -> JsError + Plot.
Variable Crop_get : option string -> World -> JsError + Crop.
Variable routes : HandlerName -> Ctx -> World -> World * Response.

Local Abbreviation table := (route_table Farmer_get Plot_get Crop_get).
Local Abbreviation handle := (handle_request Farmer_get Plot_get Crop_get routes).
Local Abbreviation auth := (userAuth Farmer_get).
Local Abbreviation plotOf := (reqPlot Plot_get).

Lemma dispatch_In (tbl : list (@Route World)) (m : Method) (path : list string)
    (r : Route) (params : gmap string string) :
  dispatch tbl m path = Some (r, params) -> In r tbl.
Proof.
  induction tbl as [|r0 tbl IH]; simpl; [discriminate|].
  destruct (Method_eqb (r_method r0) m); [|auto].
  destruct (match_path (r_path r0) path ∅) as [ps|]; [|auto].
  intros [= <- _]. left. reflexivity.
Qed.

Lemma userAuth_anonymous (ctx : Ctx) (w : World) :
  no_session_farmer (session_farmerID ctx) = true ->
  auth ctx w = Next (set_user ctx None).
Proof.
  intros Hno. unfold userAuth. cbn [set_user session_farmerID].
  destruct (session_farmerID ctx) as [fid|]; [|reflexivity].
  rewrite Hno. reflexivity.
Qed.

Lemma userAuth_farmer (ctx : Ctx) (w : World) (fid : string) (f : Farmer) :
  session_farmerID ctx = Some fid ->
  no_session_farmer (Some fid) = false ->
  Farmer_get fid w = inr f ->
  auth ctx w = Next (set_user ctx (Some f)).
Proof.
  intros Hs Hno Hget. unfold userAuth. cbn [set_user session_farmerID].
  rewrite Hs, Hno, Hget. reflexivity.
Qed.

(** Every mutating route starts with [userAuth, userRequired]. *)
Lemma mutating_chain (r : Route) :
  In r table -> mutating (r_handler r) = true ->
  exists rest, r_middleware r = auth :: userRequired :: rest.
Proof.
  simpl. intros Hin Hm.
  repeat (destruct Hin as [<-|Hin];
          [first [discriminate Hm | eexists; reflexivity]|]).
  destruct Hin.
Qed.

(** Every water, harvest and tear-up route has the chain
    [userAuth, userRequired, reqPlot, userIsOwner]. *)
Lemma crop_operation_chain (r : Route) :
  In r table -> crop_operation (r_handler r) = true ->
  r_middleware r = [auth; userRequired; plotOf; userIsOwner].
Proof.
  simpl. intros Hin Hm.
  repeat (destruct Hin as [<-|Hin];
          [first [discriminate Hm | reflexivity]|]).
  destruct Hin.
Qed.

(** C8: a request for logout, plant, tear-up, water, harvest or buy-plot
    that carries no session farmer fails in [userRequired] with "User is
    required"; the handler does not run and the world is unchanged. *)
Theorem unauthenticated_request_rejected (rq : Request) (w : World)
    (r : Route) (params : gmap string string) :
  dispatch table (rq_method rq) (rq_path rq) = Some (r, params) ->
  mutating (r_handler r) = true ->
  no_session_farmer (rq_farmerID rq) = true ->
  handle rq w = (w, Errored (Error "User is required")).
Proof.
  intros Hd Hm Hno.
  destruct (mutating_chain r (dispatch_In _ _ _ _ _ Hd) Hm) as [rest Hchain].
  unfold handle_request. rewrite Hd, Hchain. simpl.
  rewrite userAuth_anonymous by exact Hno.
  reflexivity.
Qed.

(** C2: a water, harvest or tear-up request of a farmer who is not the
    owner of the plot fails in [userIsOwner] with "Must be the owner",
    whatever the plot holds; the handler does not run and the world is
    unchanged. *)
Theorem non_owner_rejected (rq : Request) (w : World)
    (r : Route) (params : gmap string string)
    (fid : string) (f : Farmer) (p : Plot) :
  dispatch table (rq_method rq) (rq_path rq) = Some (r, params) ->
  crop_operation (r_handler r) = true ->
  rq_farmerID rq = Some fid ->
  no_session_farmer (Some fid) = false ->
  Farmer_get fid w = inr f ->
  Plot_get (params !! "plot") w = inr p ->
  farmer_id f <> plot_owner p ->
  handle rq w = (w, Errored (Error "Must be the owner")).
Proof.
  intros Hd Hop Hs Hno Hf Hp Hneq.
  pose proof (crop_operation_chain r (dispatch_In _ _ _ _ _ Hd) Hop) as Hchain.
  unfold handle_request. rewrite Hd, Hchain. simpl.
  rewrite (userAuth_farmer _ w fid f) by (simpl; assumption).
  simpl. unfold reqPlot. simpl. rewrite Hp. simpl.
  unfold userIsOwner. simpl.
  destruct (String.eqb (farmer_id f) (plot_owner p)) eqn:He; [|reflexivity].
  apply String.eqb_eq in He. contradiction.
Qed.

End AppFacts.

Section AppRuns.
Import Express.

(** Alice waters her own plot: the chain reaches the handler. *)
Example owner_request_handled :
  snd (mem_handle_request
         (mkRequest POST ["plot"; "p1"; "water"] (Some "alice@farm.example")) bank0)
  = Handled "done".
Proof. reflexivity. Qed.

(** The six mutating requests are routed to the six mutating handlers. *)
Lemma mutating_routes_registered (plot : string) :
  plot <> "" ->
  Forall (fun path =>
            exists r params,
              dispatch (route_table mem_Farmer_get mem_Plot_get mem_Crop_get)
                       POST path = Some (r, params) /\
              mutating (r_handler r) = true)
         [ ["logout"]; ["plot"; plot; "plant"]; ["plot"; plot; "tearup"];
           ["plot"; plot; "water"]; ["plot"; plot; "harvest"]; ["buy-plot"] ].
Proof.
  intros Hne. apply String.eqb_neq in Hne.
  repeat constructor; simpl; rewrite ?Hne; eexists _, _; split; reflexivity.
Qed.

Lemma unauthenticated_request_rejected_witness :
  mem_handle_request (mkRequest POST ["plot"; "p1"; "water"] None) bank0
  = (bank0, Errored (Error "User is required")).
Proof.
  unfold mem_handle_request.
  eapply unauthenticated_request_rejected; reflexivity.
Defined.

Lemma non_owner_rejected_witness :
  mem_handle_request
    (mkRequest POST ["plot"; "p1"; "harvest"] (Some "bob@farm.example")) bank0
  = (bank0, Errored (Error "Must be the owner")).
Proof.
  unfold mem_handle_request.
  eapply (non_owner_rejected _ _ _ _ _ _ _ _ "bob@farm.example"
            (mkFarmer "bob@farm.example")
            (mkPlot "p1" "alice@farm.example" (Some "c1")));
    try reflexivity.
  simpl. discriminate.
Defined.

End AppRuns.

(** * Properties of the start-up sequence *)

Section StartupFacts.
Import Config.
Import Express.
Import Startup.

Ltac startup_cases config env :=
  destruct env as [conn seed key upd lis];
  unfold startup, steps, task_connect, task_seed, task_serve, task_end, all_ok;
  cbn [db_connect CropType_initialData readFileSync_key updater_start app_listen];
  destruct conn as [|?|]; destruct seed as [|?|];
  destruct (underscore_has config "key");
  destruct key as [?|]; destruct upd as [?|]; destruct lis as [|?|];
  cbn [waterfall app filter is_step].

(** When every collaborator succeeds the four steps are taken, in order. *)
Lemma startup_steps_ok (config : object) (env : Env) :
  all_ok env ->
  steps (startup config env) =
  [EvConnect; EvInitialData; EvUpdaterStart;
   EvListen (config !! "port") (config !! "address")].
Proof.
  startup_cases config env; intros (H1 & H2 & H3 & H4);
    first [discriminate | reflexivity].
Qed.

(** Whatever the collaborators do, the steps taken are an initial part of
    the sequence. *)
Lemma startup_steps_prefix (config : object) (env : Env) :
  steps (startup config env) `prefix_of`
  [EvConnect; EvInitialData; EvUpdaterStart;
   EvListen (config !! "port") (config !! "address")].
Proof.
  startup_cases config env; eexists; reflexivity.
Qed.

Lemma startup_step_needs (config : object) (env : Env) :
  (In EvInitialData (startup config env) -> db_connect env = CbOk) /\
  (In EvUpdaterStart (startup config env) ->
   db_connect env = CbOk /\ CropType_initialData env = CbOk) /\
  (In (EvListen (config !! "port") (config !! "address")) (startup config env) ->
   db_connect env = CbOk /\ CropType_initialData env = CbOk /\
   updater_start env = None).
Proof.
  startup_cases config env; cbn [In];
    (split; [|split]); intros Hin;
    try (repeat split; reflexivity);
    repeat (destruct Hin as [Hin|Hin]; try discriminate Hin);
    try contradiction.
Qed.

(** C3: start-up takes the steps connect, seed the registry, start the
    updater, listen, in this order and each once; a step is only taken when
    every step before it has succeeded; and when all succeed, all four are
    taken. *)
Theorem startup_order (config : object) (env : Env) :
  let trace := startup config env in
  let listen := EvListen (config !! "port") (config !! "address") in
  (all_ok env ->
   steps trace = [EvConnect; EvInitialData; EvUpdaterStart; listen]) /\
  steps trace `prefix_of` [EvConnect; EvInitialData; EvUpdaterStart; listen] /\
  (In EvInitialData trace -> db_connect env = CbOk) /\
  (In EvUpdaterStart trace ->
   db_connect env = CbOk /\ CropType_initialData env = CbOk) /\
  (In listen trace ->
   db_connect env = CbOk /\ CropType_initialData env = CbOk /\
   updater_start env = None).
Proof.
  intros trace listen. subst trace listen.
  split; [apply startup_steps_ok|].
  split; [apply startup_steps_prefix|].
  apply startup_step_needs.
Qed.

Lemma startup_order_witness :
  let env := mkEnv CbOk CbOk None None CbOk in
  all_ok env /\
  steps (startup (config_of None) env) =
  [EvConnect; EvInitialData; EvUpdaterStart;
   EvListen (Some (JNum 4000)) (Some (JStr "localhost"))].
Proof.
  intros env. split.
  - repeat split.
  - apply (proj1 (startup_order (config_of None) env)). repeat split.
Defined.

(** A failed connection: nothing is seeded, started or served. *)
Example startup_connect_failed :
  startup (config_of None)
          (mkEnv (CbErr (DatabankError "ConnectError" "")) CbOk None None CbOk)
  = [EvConnect; EvLogListening].
Proof. reflexivity. Qed.

End StartupFacts.

(** * Properties of the crop state machine *)

Section CropFacts.
Import Simulation.

Lemma reconcile_terminal (c : Crop) (now : Z) :
  terminal (phase c) = true -> reconcile c now = (c, []).
Proof. intros Ht. unfold reconcile. rewrite Ht. reflexivity. Qed.

Lemma set_phase_same (c : Crop) : set_phase c (phase c) (reminded c) = c.
Proof. destruct c. reflexivity. Qed.

Lemma maturityDeadline_set_phase (c : Crop) (p : Phase) (r : bool) :
  maturityDeadline (set_phase c p r) = maturityDeadline c.
Proof. reflexivity. Qed.

Lemma witheringDeadline_set_phase (c : Crop) (p : Phase) (r : bool) :
  witheringDeadline (set_phase c p r) = witheringDeadline c.
Proof. reflexivity. Qed.

Lemma wateringDue_set_phase (c : Crop) (p : Phase) (r : bool) :
  wateringDue (set_phase c p r) = wateringDue c.
Proof. reflexivity. Qed.

Lemma reconcile_phase (c : Crop) (now : Z) :
  phase (fst (reconcile c now)) =
  if terminal (phase c) then phase c else phase_at c now.
Proof.
  unfold reconcile, phase_at.
  destruct (terminal (phase c)); [reflexivity|].
  repeat case_match; reflexivity.
Qed.

(** A second application at the same time changes nothing and notifies
    nobody. *)
Lemma reconcile_twice (c : Crop) (now : Z) :
  reconcile (fst (reconcile c now)) now = (fst (reconcile c now), []).
Proof.
  unfold reconcile at 2 3.
  destruct (terminal (phase c)) eqn:Ht; simpl.
  { apply reconcile_terminal, Ht. }
  destruct (maturityDeadline c <=? now)%Z eqn:Hm; simpl.
  { apply reconcile_terminal. reflexivity. }
  destruct (witheringDeadline c <=? now)%Z eqn:Hw; simpl.
  { apply reconcile_terminal. reflexivity. }
  destruct (wateringDue c <=? now)%Z eqn:Hd; simpl.
  - unfold reconcile. simpl.
    rewrite maturityDeadline_set_phase, witheringDeadline_set_phase,
      wateringDue_set_phase, Hm, Hw, Hd.
    reflexivity.
  - unfold reconcile. simpl.
    rewrite maturityDeadline_set_phase, witheringDeadline_set_phase,
      wateringDue_set_phase, Hm, Hw, Hd.
    reflexivity.
Qed.

(** C1: a crop past its maturity deadline that is neither ReadyToHarvest
    nor Withered becomes ReadyToHarvest with exactly one notification,
    "ready"; nothing is said about withering, whether or not the withering
    deadline has passed too. *)
Theorem maturity_takes_precedence (c : Crop) (now : Z) :
  (maturityDeadline c <= now)%Z ->
  phase c <> ReadyToHarvest ->
  phase c <> Withered ->
  phase (fst (reconcile c now)) = ReadyToHarvest /\
  snd (reconcile c now) = [notify c ready] /\
  Forall (fun n => n_kind n <> withered) (snd (reconcile c now)).
Proof.
  intros Hm Hr Hw. unfold reconcile.
  destruct (phase c) eqn:Hp; try congruence; simpl;
    apply Z.leb_le in Hm; rewrite Hm; simpl;
    (split; [reflexivity|split; [reflexivity|]]);
    repeat constructor; discriminate.
Qed.

(** The carrot of section 8 at [t = 61]: both deadlines have passed. *)
Lemma maturity_takes_precedence_witness :
  (witheringDeadline carrot0 <= 61)%Z /\
  phase (fst (reconcile carrot0 61)) = ReadyToHarvest /\
  snd (reconcile carrot0 61) = [notify carrot0 ready].
Proof.
  split; [vm_compute; discriminate|].
  destruct (maturity_takes_precedence carrot0 61) as (Hp & He & _).
  - vm_compute. discriminate.
  - discriminate.
  - discriminate.
  - split; assumption.
Defined.

(** C4: applying the transition rule twice against the same [now] yields
    the phase of applying it once. *)
Theorem reconcile_idempotent (c : Crop) (now : Z) :
  phase (fst (reconcile (fst (reconcile c now)) now)) =
  phase (fst (reconcile c now)).
Proof. rewrite reconcile_twice. reflexivity. Qed.

Lemma auto_step_terminal (c c' : Crop) :
  terminal (phase c) = true -> auto_step c c' -> c' = c.
Proof.
  intros Ht Hs. destruct Hs as [c now].
  rewrite reconcile_terminal by exact Ht. reflexivity.
Qed.

Lemma auto_steps_terminal (c c' : Crop) :
  auto_steps c c' -> terminal (phase c) = true -> c' = c.
Proof.
  induction 1 as [c|c1 c2 c3 H12 H23 IH]; intros Ht; [reflexivity|].
  apply auto_step_terminal in H12; [|exact Ht]. subst c2. apply IH, Ht.
Qed.

(** C5: a crop that is ReadyToHarvest or Withered is left as it is by any
    number of sweeps; an action that succeeds on it either keeps its phase
    or detaches it, and then the action is a harvest of a ReadyToHarvest
    crop or a tear-up. *)
Theorem terminal_phase_is_final (c : Crop) :
  terminal (phase c) = true ->
  (forall c', auto_steps c c' -> c' = c) /\
  (forall (a : Action) (r : option Crop),
     act a c = inr r ->
     match r with
     | Some c' => phase c' = phase c
     | None =>
         ((exists farmer now, a = Harvest farmer now) /\ phase c = ReadyToHarvest)
         \/ (exists farmer now, a = TearUp farmer now)
     end).
Proof.
  intros Ht. split.
  - intros c' Hs. apply (auto_steps_terminal _ _ Hs Ht).
  - intros a r Ha. destruct a as [now|farmer now|farmer now|farmer now]; simpl in Ha.
    + rewrite reconcile_terminal in Ha by exact Ht.
      injection Ha as <-. reflexivity.
    + unfold water in Ha. rewrite reconcile_terminal in Ha by exact Ht.
      simpl in Ha. rewrite Ht in Ha.
      destruct (negb (String.eqb farmer (crop_owner c))); discriminate.
    + unfold harvest in Ha. rewrite reconcile_terminal in Ha by exact Ht.
      simpl in Ha.
      destruct (negb (String.eqb farmer (crop_owner c))); [discriminate|].
      destruct (phase c) eqn:Hp; try discriminate.
      injection Ha as <-. left. split; [eauto|reflexivity].
    + destruct (tearUp c farmer now); [discriminate|].
      injection Ha as <-. right. eauto.
Qed.

Lemma terminal_phase_is_final_witness :
  let c := set_phase carrot0 Withered false in
  terminal (phase c) = true /\
  fst (reconcile (fst (reconcile c 50)) 5000) = c /\
  act (Water "alice@farm.example" 50) c = inl InvalidStateError.
Proof.
  intros c. split; [reflexivity|]. split; [|reflexivity].
  apply (proj1 (terminal_phase_is_final c eq_refl)).
  eapply auto_next; [apply auto_step_intro|].
  eapply auto_next; [apply auto_step_intro|].
  apply auto_refl.
Defined.

(** The scenarios of section 8. *)
Example carrot_growing_at_29 : phase (fst (reconcile carrot0 29)) = Growing.
Proof. reflexivity. Qed.

Example carrot_needs_water_at_31 :
  reconcile carrot0 31 =
  (set_phase carrot0 NeedsWater true, [notify carrot0 needsWater]).
Proof. reflexivity. Qed.

Example carrot_withered_at_41 :
  reconcile (fst (reconcile carrot0 31)) 41 =
  (set_phase carrot0 Withered true, [notify carrot0 withered]).
Proof. reflexivity. Qed.

Example carrot_harvest_at_62 :
  harvest (fst (reconcile (fst (reconcile carrot0 31)) 61))
          "alice@farm.example" 62 = inr 1%Z.
Proof. reflexivity. Qed.

End CropFacts.

(** * Properties of the CropType registry *)

Section RegistryFacts.
Import Simulation.
Import Registry.

Lemma insert_seeds_lookup (seeds : list CropType) (cat : catalog) (id : string) :
  is_Some (insert_seeds seeds cat !! id) <->
  id ∈ ct_id <$> seeds \/ is_Some (cat !! id).
Proof.
  induction seeds as [|ct seeds IH]; simpl.
  - rewrite elem_of_nil. tauto.
  - rewrite elem_of_cons. destruct (decide (ct_id ct = id)) as [<-|Hne].
    + rewrite lookup_insert_eq. split; [auto|eauto].
    + rewrite lookup_insert_ne by exact Hne. rewrite IH.
      split; [tauto|]. intros [[Heq|Hin]|Hc]; [congruence|tauto|tauto].
Qed.

(** C6: on a populated catalog [ensureInitialData] changes nothing, on an
    empty one it inserts the seed list, and a second call leaves the
    catalog as the first call left it. *)
Theorem ensureInitialData_idempotent (seeds : list CropType) (cat : catalog) :
  (cat <> ∅ -> ensureInitialData seeds cat = cat) /\
  (cat = ∅ -> ensureInitialData seeds cat = insert_seeds seeds ∅) /\
  ensureInitialData seeds (ensureInitialData seeds cat) =
  ensureInitialData seeds cat.
Proof.
  unfold ensureInitialData. split; [|split].
  - intros Hne. rewrite decide_False by exact Hne. reflexivity.
  - intros ->. rewrite decide_True by reflexivity. reflexivity.
  - destruct (decide (cat = ∅)) as [->|Hne].
    + destruct (decide (insert_seeds seeds ∅ = ∅)) as [He|_]; [|reflexivity].
      rewrite He. exact He.
    + rewrite decide_False by exact Hne. reflexivity.
Qed.

Lemma ensureInitialData_idempotent_witness :
  ensureInitialData [Carrot] ∅ !! "carrot" = Some Carrot /\
  ensureInitialData [Carrot] (ensureInitialData [Carrot] ∅) =
  ensureInitialData [Carrot] ∅ /\
  ensureInitialData [] (ensureInitialData [Carrot] ∅) =
  ensureInitialData [Carrot] ∅.
Proof.
  destruct (ensureInitialData_idempotent [Carrot] ∅) as (_ & Hempty & Hidem).
  split; [rewrite Hempty by reflexivity; reflexivity|].
  split; [exact Hidem|].
  apply (proj1 (ensureInitialData_idempotent [] (ensureInitialData [Carrot] ∅))).
  rewrite Hempty by reflexivity. simpl.
  intros He. apply (f_equal (fun m => m !! "carrot")) in He.
  rewrite lookup_insert_eq, lookup_empty in He. discriminate.
Defined.

End RegistryFacts.

(** * Properties of the Update Engine *)

Section UpdaterFacts.
Import Simulation.
Import Updater.

Variable flt : Faults.
Variable now : Z.
















End UpdaterFacts.

Section SweepFacts.
Import Simulation.
Import Updater.



(** A sweep at [t = 61] with the first crop unreadable: both crops are
    taken up, the second one is ready and its owner is told. *)
Example sweep_with_one_unreadable_crop :
  let eng := sweep first_crop_unreadable 61 engine0 in
  length (visited eng) = 2%nat /\
  outbox eng = [notify carrot1 ready] /\
  log eng = [LogCropSkipped "crop-1" NotFoundError].
Proof. vm_compute. repeat split; reflexivity. Qed.

End SweepFacts.

(** * Further properties of the configuration *)

Section ConfigEdges.
Import Config.

(** X1: after lines 56-62 [config.params] is never falsy, so that the read of
    [config.params.schema] in line 66 finds an object to read from whenever
    the file sets no [params] of its own. *)
Theorem config_params_never_falsy (file : option object) :
  truthy (config_of file !! "params") = true.
Proof.
  unfold config_of, fill_params.
  destruct (truthy (load_config file !! "params")) eqn:Ht; simpl; [exact Ht|].
  destruct (match load_config file !! "driver" with
            | Some d => loose_eq_disk d
            | None => false
            end); rewrite lookup_insert_eq; reflexivity.
Qed.

Lemma dom_fill_params (config : object) :
  dom (fill_params config) = {["params"]} ∪ dom config.
Proof.
  unfold fill_params.
  destruct (truthy (config !! "params")) eqn:Ht; simpl.
  - assert (Hin : "params" ∈ dom config).
    { apply elem_of_dom. destruct (config !! "params"); [eauto|discriminate]. }
    symmetry. apply subseteq_union_1_L, singleton_subseteq_l, Hin.
  - destruct (match config !! "driver" with
              | Some d => loose_eq_disk d
              | None => false
              end); apply dom_insert_L.
Qed.

(** X2: the keys of the configuration are those of the file, those of
    [defaults], and [params]: every default is always defined, and no other
    key is made up. *)
Theorem config_keys (file : option object) :
  dom (config_of file) = {["params"]} ∪ dom (default ∅ file) ∪ dom defaults.
Proof.
  unfold config_of. rewrite dom_fill_params.
  destruct file as [parsed|]; simpl.
  - unfold underscore_defaults. rewrite dom_union_L. apply (assoc_L (∪)).
  - rewrite dom_empty_L, (right_id_L ∅ (∪)). reflexivity.
Qed.

(** X3: with a driver that is not the disk driver and no [params] in the file,
    [params] is the empty object: no data directory is configured. *)
Theorem config_other_driver_empty_params (file : option object) (d : json) :
  config_of file !! "driver" = Some d ->
  loose_eq_disk d = false ->
  from_option (fun parsed => parsed !! "params") None file = None ->
  config_of file !! "params" = Some (JObj []) /\
  params_dir (config_of file) = None.
Proof.
  intros Hd Hl Hp.
  rewrite load_config_driver in Hd. rewrite <- load_config_params in Hp.
  assert (H : config_of file !! "params" = Some (JObj [])).
  { unfold config_of, fill_params. rewrite Hp, Hd, Hl. simpl.
    apply lookup_insert_eq. }
  split; [exact H|]. unfold params_dir. rewrite H. reflexivity.
Qed.

Lemma config_other_driver_empty_params_witness :
  let file : object := {[ "driver" := JStr "redis" ]} in
  config_of (Some file) !! "params" = Some (JObj []) /\
  params_dir (config_of (Some file)) = None.
Proof.
  intros file.
  apply (config_other_driver_empty_params (Some file) (JStr "redis"));
    reflexivity.
Defined.

(** X4: the secret of the session comes from the file alone: [defaults] has no
    [sessionSecret] and lines 56-62 add none, so that without a file, or
    with a file without the key, the secret is "insecure". *)
Theorem session_secret_of_file (file : option object) :
  session_secret (config_of file) =
  Some (default (JStr "insecure") (file ≫= (fun parsed => parsed !! "sessionSecret"))).
Proof.
  assert (Hl : config_of file !! "sessionSecret" =
               file ≫= (fun parsed => parsed !! "sessionSecret")).
  { unfold config_of. rewrite fill_params_other by discriminate.
    destruct file as [parsed|]; simpl; [|reflexivity].
    unfold underscore_defaults. rewrite lookup_union.
    rewrite defaults_lookup_sessionSecret.
    destruct (parsed !! "sessionSecret"); reflexivity. }
  unfold session_secret, underscore_has. rewrite Hl.
  destruct (file ≫= (fun parsed => parsed !! "sessionSecret")) as [v|].
  - rewrite bool_decide_eq_true_2 by eauto. reflexivity.
  - rewrite bool_decide_eq_false_2 by (intros [? ?]; discriminate). reflexivity.
Qed.

End ConfigEdges.

(** * Properties of the databank schema *)

Section SchemaFacts.
Import Config.
Import Schema.

Variables DialbackClient_schema DatabankStore_schema : object.
Variables Farmer_schema CropType_schema : object.
Variables RequestToken Host Plot Crop : ModelClass.

Local Abbreviation build :=
  (build_schema DialbackClient_schema DatabankStore_schema
                Farmer_schema CropType_schema RequestToken Host Plot Crop).

Lemma build_schema_lookup (configured : option object) (k : string) :
  build configured !! k =
  match CropType_schema !! k with
  | Some v => Some v
  | None =>
    match Farmer_schema !! k with
    | Some v => Some v
    | None =>
      if decide (cls_type Crop = k) then Some (cls_schema Crop)
      else if decide (cls_type Plot = k) then Some (cls_schema Plot)
      else if decide (cls_type Host = k) then Some (cls_schema Host)
      else if decide (cls_type RequestToken = k) then Some (cls_schema RequestToken)
      else match DatabankStore_schema !! k with
           | Some v => Some v
           | None =>
             match DialbackClient_schema !! k with
             | Some v => Some v
             | None => default ∅ configured !! k
             end
           end
    end
  end.
Proof.
  unfold build_schema, underscore_extend, register. simpl.
  destruct (CropType_schema !! k) as [v|] eqn:Hc;
    [apply lookup_union_Some_l, Hc|rewrite lookup_union_r by exact Hc].
  destruct (Farmer_schema !! k) as [v|] eqn:Hf;
    [apply lookup_union_Some_l, Hf|rewrite lookup_union_r by exact Hf].
  repeat (case_decide; [subst k; rewrite lookup_insert_eq; reflexivity
                       |rewrite lookup_insert_ne by assumption]).
  destruct (DatabankStore_schema !! k) as [v|] eqn:Hs;
    [apply lookup_union_Some_l, Hs|rewrite lookup_union_r by exact Hs].
  destruct (DialbackClient_schema !! k) as [v|] eqn:Hd;
    [apply lookup_union_Some_l, Hd|rewrite lookup_union_r by exact Hd].
  reflexivity.
Qed.

(** X5: a schema entry of the configuration file never replaces a built-in
    one: the schema is the built-in schema, completed by the entries of the
    file for the types no built-in source defines. *)
Theorem schema_builtin_over_configured (configured : option object) :
  build_schema DialbackClient_schema DatabankStore_schema
               Farmer_schema CropType_schema RequestToken Host Plot Crop
               configured
  = build_schema DialbackClient_schema DatabankStore_schema
                 Farmer_schema CropType_schema RequestToken Host Plot Crop
                 None
    ∪ default ∅ configured.
Proof.
  apply map_eq. intros k.
  destruct (build None !! k) as [v|] eqn:Hb.
  - rewrite (lookup_union_Some_l _ _ _ _ Hb).
    rewrite build_schema_lookup in Hb |- *. simpl in Hb.
    rewrite lookup_empty in Hb.
    repeat case_match; congruence.
  - rewrite (lookup_union_r _ _ _ Hb).
    rewrite build_schema_lookup in Hb |- *. simpl in Hb.
    repeat case_match; congruence.
Qed.

(** X6: the later a source is applied, the stronger it is: every entry of
    [CropType.schema] is in the schema, every entry of [Farmer.schema] that
    [CropType.schema] does not define, and the types of the four model
    classes are always defined. *)
Theorem schema_precedence (configured : option object) :
  let schema :=
    build_schema DialbackClient_schema DatabankStore_schema
                 Farmer_schema CropType_schema RequestToken Host Plot Crop
                 configured in
  CropType_schema ⊆ schema /\
  (forall (k : string) (v : json),
     Farmer_schema !! k = Some v -> CropType_schema !! k = None ->
     schema !! k = Some v) /\
  Forall (fun Cls => is_Some (schema !! cls_type Cls))
         [RequestToken; Host; Plot; Crop].
Proof.
  intros schema. subst schema. split; [|split].
  - apply map_subseteq_spec. intros k v Hk.
    rewrite build_schema_lookup, Hk. reflexivity.
  - intros k v Hf Hc. rewrite build_schema_lookup, Hc, Hf. reflexivity.
  - repeat constructor; rewrite build_schema_lookup;
      repeat case_match; eauto; congruence.
Qed.

End SchemaFacts.

(** * Further properties of the middleware chain *)

Section AppEdges.
Import Express.

Context {World Response : Type}.
Variable Farmer_get : string -> World -> JsError + Farmer.
Variable Plot_get : option string -> World -> JsError + Plot.
Variable Crop_get : option string -> World -> JsError + Crop.
Variable routes : HandlerName -> Ctx -> World -> World * Response.

Local Abbreviation table := (route_table Farmer_get Plot_get Crop_get).
Local Abbreviation handle := (handle_request Farmer_get Plot_get Crop_get routes).
Local Abbreviation auth := (userAuth Farmer_get).
Local Abbreviation plotOf := (reqPlot Plot_get).
Local Abbreviation cropOf := (reqCrop Crop_get).
Local Abbreviation visits := (visitor Farmer_get).

(** A chain is its middleware, then its handler. *)
Lemma run_chain_chain_ctx (mws : list (@Middleware World))
    (h : Ctx -> World -> World * Response) (ctx : Ctx) (w : World) :
  run_chain mws h ctx w =
  match chain_ctx mws ctx w with
  | inr ctx' => (fst (h ctx' w), Handled (snd (h ctx' w)))
  | inl err => (w, Errored err)
  end.
Proof.
  revert ctx. induction mws as [|mw mws IH]; intros ctx; simpl.
  - destruct (h ctx w). reflexivity.
  - destruct (mw ctx w); [apply IH|reflexivity].
Qed.

Lemma handle_dispatched (rq : Request) (w : World) (r : Route)
    (params : gmap string string) :
  dispatch table (rq_method rq) (rq_path rq) = Some (r, params) ->
  handle rq w =
  match chain_ctx (r_middleware r) (initial_ctx rq params) w with
  | inr ctx => (fst (routes (r_handler r) ctx w),
                Handled (snd (routes (r_handler r) ctx w)))
  | inl err => (w, Errored err)
  end.
Proof.
  intros Hd. unfold handle_request. rewrite Hd. apply run_chain_chain_ctx.
Qed.

Lemma userAuth_error (ctx : Ctx) (w : World) (fid : string) (err : JsError) :
  session_farmerID ctx = Some fid ->
  no_session_farmer (Some fid) = false ->
  Farmer_get fid w = inl err ->
  auth ctx w = Fail err.
Proof.
  intros Hs Hno Hget. unfold userAuth. cbn [set_user session_farmerID].
  rewrite Hs, Hno, Hget. reflexivity.
Qed.

Lemma userAuth_visitor (rq : Request) (params : gmap string string)
    (w : World) (u : option Farmer) :
  visits rq w u ->
  auth (initial_ctx rq params) w = Next (set_user (initial_ctx rq params) u).
Proof.
  destruct u as [f|]; simpl.
  - intros (fid & Hs & Hno & Hget).
    apply (userAuth_farmer Farmer_get _ w fid f); [exact Hs|exact Hno|exact Hget].
  - intros Hno. apply userAuth_anonymous. exact Hno.
Qed.

Lemma userAuth_inv (rq : Request) (params : gmap string string)
    (w : World) (ctx : Ctx) :
  auth (initial_ctx rq params) w = Next ctx ->
  exists u, visits rq w u /\ ctx = set_user (initial_ctx rq params) u.
Proof.
  unfold userAuth. cbn [set_user session_farmerID initial_ctx].
  destruct (rq_farmerID rq) as [fid|] eqn:Hs.
  - destruct (no_session_farmer (Some fid)) eqn:Hno.
    + intros [= <-]. exists None. split; [simpl; rewrite Hs; exact Hno|reflexivity].
    + destruct (Farmer_get fid w) as [err|f] eqn:Hget; [discriminate|].
      intros [= <-]. exists (Some f). split; [|reflexivity].
      simpl. exists fid. auto.
  - intros [= <-]. exists None. split; [simpl; rewrite Hs; reflexivity|reflexivity].
Qed.

(** The chains of the route table, by the class of the handler. *)
Lemma user_required_chain (r : Route) :
  In r table -> user_required (r_handler r) = true ->
  r_middleware r =
  auth :: userRequired ::
    (if owner_only (r_handler r) then [plotOf; userIsOwner] else []).
Proof.
  simpl. intros Hin Hm.
  repeat (destruct Hin as [<-|Hin];
          [first [discriminate Hm | reflexivity]|]).
  destruct Hin.
Qed.

Lemma no_user_chain (r : Route) :
  In r table -> no_user (r_handler r) = true ->
  r_middleware r = [auth; noUser].
Proof.
  simpl. intros Hin Hm.
  repeat (destruct Hin as [<-|Hin];
          [first [discriminate Hm | reflexivity]|]).
  destruct Hin.
Qed.

Lemma guarded_chain (r : Route) :
  In r table -> unguarded (r_handler r) = false ->
  exists rest, r_middleware r = auth :: rest.
Proof.
  simpl. intros Hin Hm.
  repeat (destruct Hin as [<-|Hin];
          [first [discriminate Hm | eexists; reflexivity]|]).
  destruct Hin.
Qed.

Lemma open_page_chain (r : Route) :
  In r table -> open_page (r_handler r) = true ->
  r_middleware r = [] \/ r_middleware r = [auth; userOptional] \/
  r_middleware r = [auth; noUser].
Proof.
  simpl. intros Hin Hm.
  repeat (destruct Hin as [<-|Hin];
          [first [discriminate Hm | left; reflexivity
                 | right; left; reflexivity | right; right; reflexivity]|]).
  destruct Hin.
Qed.

Lemma plot_route_chain (r : Route) :
  In r table -> plot_route (r_handler r) = true ->
  r_middleware r =
  if owner_only (r_handler r) then [auth; userRequired; plotOf; userIsOwner]
  else [auth; userOptional; plotOf].
Proof.
  simpl. intros Hin Hm.
  repeat (destruct Hin as [<-|Hin];
          [first [discriminate Hm | reflexivity]|]).
  destruct Hin.
Qed.

Lemma crop_page_chain (r : Route) :
  In r table -> r_handler r = routes_crop ->
  r_middleware r = [auth; userOptional; cropOf].
Proof.
  simpl. intros Hin Hm.
  repeat (destruct Hin as [<-|Hin];
          [first [discriminate Hm | reflexivity]|]).
  destruct Hin.
Qed.

(** X8: what a handler behind [userRequired] may rely on: it only runs for a
    session that names a farmer [Farmer.get] loads, with that farmer as
    [req.user] and as the [user] local of the response; and a handler
    behind [userIsOwner] only runs with the plot [Plot.get] loads for
    [:plot] as [req.plot], owned by that farmer. *)
Theorem handler_runs_only_when_authorised (rq : Request) (w w' : World)
    (resp : Response) (r : Route) (params : gmap string string) :
  dispatch table (rq_method rq) (rq_path rq) = Some (r, params) ->
  user_required (r_handler r) = true ->
  handle rq w = (w', Handled resp) ->
  exists (fid : string) (f : Farmer) (ctx : Ctx),
    rq_farmerID rq = Some fid /\ fid <> "" /\
    Farmer_get fid w = inr f /\
    req_user ctx = Some f /\ res_local_user ctx = Some f /\
    req_params ctx = params /\
    routes (r_handler r) ctx w = (w', resp) /\
    (owner_only (r_handler r) = true ->
     exists p : Plot,
       Plot_get (params !! "plot") w = inr p /\
       req_plot ctx = Some p /\
       farmer_id f = plot_owner p).
Proof.
  intros Hd Hu Hh.
  pose proof (user_required_chain r (dispatch_In _ _ _ _ _ Hd) Hu) as Hc.
  rewrite (handle_dispatched _ _ _ _ Hd), Hc in Hh. cbn [chain_ctx] in Hh.
  destruct (auth (initial_ctx rq params) w) as [c1|] eqn:Ha; [|discriminate].
  apply userAuth_inv in Ha as (u & Hv & ->).
  destruct u as [f|]; [|discriminate].
  destruct Hv as (fid & Hs & Hno & Hget).
  assert (Hne : fid <> "") by (apply String.eqb_neq; exact Hno).
  cbn [userRequired req_user set_user] in Hh.
  destruct (owner_only (r_handler r)) eqn:Ho; cbn [chain_ctx] in Hh.
  - unfold reqPlot in Hh. cbn [req_params set_user initial_ctx] in Hh.
    destruct (Plot_get (params !! "plot") w) as [err|p] eqn:Hp; [discriminate|].
    unfold userIsOwner in Hh. cbn [req_user req_plot set_plot set_user] in Hh.
    destruct (String.eqb (farmer_id f) (plot_owner p)) eqn:He; [|discriminate].
    apply String.eqb_eq in He. injection Hh as Hw Hr.
    exists fid, f, (set_plot (set_user (initial_ctx rq params) (Some f)) p).
    repeat (split; [eassumption || reflexivity|]).
    split; [apply injective_projections; simpl; eassumption|].
    intros _. exists p. split; [reflexivity|split; [reflexivity|exact He]].
  - injection Hh as Hw Hr.
    exists fid, f, (set_user (initial_ctx rq params) (Some f)).
    repeat (split; [eassumption || reflexivity|]).
    split; [apply injective_projections; simpl; eassumption|].
    discriminate.
Qed.

(** X9: the owner of the plot is served: behind [userIsOwner] the handler runs
    with the farmer as [req.user] and the plot as [req.plot]. *)
Theorem owner_request_served (rq : Request) (w : World) (r : Route)
    (params : gmap string string) (f : Farmer) (p : Plot) :
  dispatch table (rq_method rq) (rq_path rq) = Some (r, params) ->
  owner_only (r_handler r) = true ->
  visits rq w (Some f) ->
  Plot_get (params !! "plot") w = inr p ->
  farmer_id f = plot_owner p ->
  let ctx := set_plot (set_user (initial_ctx rq params) (Some f)) p in
  handle rq w = (fst (routes (r_handler r) ctx w),
                 Handled (snd (routes (r_handler r) ctx w))).
Proof.
  intros Hd Ho Hv Hp He ctx. subst ctx.
  assert (Hu : user_required (r_handler r) = true).
  { unfold user_required. rewrite Ho. destruct (r_handler r); reflexivity. }
  pose proof (user_required_chain r (dispatch_In _ _ _ _ _ Hd) Hu) as Hc.
  rewrite (handle_dispatched _ _ _ _ Hd), Hc, Ho. cbn [chain_ctx].
  rewrite (userAuth_visitor _ _ _ _ Hv).
  cbn [userRequired req_user set_user].
  unfold reqPlot. cbn [req_params set_user initial_ctx]. rewrite Hp.
  unfold userIsOwner. cbn [req_user req_plot set_plot set_user]. rewrite He.
  rewrite String.eqb_refl. reflexivity.
Qed.

(** X10: a farmer who is logged in gets "Already logged in" from the login form
    and from its submission. *)
Theorem logged_in_farmer_cannot_login (rq : Request) (w : World) (r : Route)
    (params : gmap string string) (f : Farmer) :
  dispatch table (rq_method rq) (rq_path rq) = Some (r, params) ->
  no_user (r_handler r) = true ->
  visits rq w (Some f) ->
  handle rq w = (w, Errored (Error "Already logged in")).
Proof.
  intros Hd Hn Hv.
  rewrite (handle_dispatched _ _ _ _ Hd).
  rewrite (no_user_chain r (dispatch_In _ _ _ _ _ Hd) Hn). cbn [chain_ctx].
  rewrite (userAuth_visitor _ _ _ _ Hv). reflexivity.
Qed.

(** X11: a session that names a farmer [Farmer.get] cannot load fails with the
    error of [Farmer.get] on every route but [/authorized/:hostname] and
    [/.well-known/host-meta.json], the public pages included. *)
Theorem unloadable_session_farmer_fails (rq : Request) (w : World) (r : Route)
    (params : gmap string string) (fid : string) (err : JsError) :
  dispatch table (rq_method rq) (rq_path rq) = Some (r, params) ->
  unguarded (r_handler r) = false ->
  rq_farmerID rq = Some fid ->
  no_session_farmer (Some fid) = false ->
  Farmer_get fid w = inl err ->
  handle rq w = (w, Errored err).
Proof.
  intros Hd Hg Hs Hno Hget.
  destruct (guarded_chain r (dispatch_In _ _ _ _ _ Hd) Hg) as [rest Hc].
  rewrite (handle_dispatched _ _ _ _ Hd), Hc. cbn [chain_ctx].
  rewrite (userAuth_error _ w fid err); [reflexivity|exact Hs|exact Hno|exact Hget].
Qed.

(** X12: a plot or crop that cannot be loaded is reported with the error of
    [Plot.get] or [Crop.get] to every visitor who gets as far: to anybody
    on the plot and crop pages, and to every logged-in farmer, owner or
    not, on the owner-only routes, where the plot is loaded before its
    owner is checked. *)
Theorem missing_document_reported (rq : Request) (w : World) (r : Route)
    (params : gmap string string) (u : option Farmer) (err : JsError) :
  dispatch table (rq_method rq) (rq_path rq) = Some (r, params) ->
  visits rq w u ->
  (plot_route (r_handler r) = true ->
   (owner_only (r_handler r) = true -> is_Some u) ->
   Plot_get (params !! "plot") w = inl err ->
   handle rq w = (w, Errored err)) /\
  (r_handler r = routes_crop ->
   Crop_get (params !! "crop") w = inl err ->
   handle rq w = (w, Errored err)).
Proof.
  intros Hd Hv. rewrite (handle_dispatched _ _ _ _ Hd). split.
  - intros Hp Hu Hget.
    rewrite (plot_route_chain r (dispatch_In _ _ _ _ _ Hd) Hp).
    destruct (owner_only (r_handler r)); cbn [chain_ctx];
      rewrite (userAuth_visitor _ _ _ _ Hv).
    + destruct (Hu eq_refl) as [f ->].
      cbn [userRequired req_user set_user].
      unfold reqPlot. cbn [req_params set_user initial_ctx]. rewrite Hget.
      reflexivity.
    + cbn [userOptional].
      unfold reqPlot. cbn [req_params set_user initial_ctx]. rewrite Hget.
      reflexivity.
  - intros Hc Hget.
    rewrite (crop_page_chain r (dispatch_In _ _ _ _ _ Hd) Hc). cbn [chain_ctx].
    rewrite (userAuth_visitor _ _ _ _ Hv). cbn [userOptional].
    unfold reqCrop. cbn [req_params set_user initial_ctx]. rewrite Hget.
    reflexivity.
Qed.

(** X13: the plot page and the crop page are served to anybody, logged in or
    not, owner or not, once the plot or crop is loaded. *)
Theorem plot_and_crop_pages_public (rq : Request) (w : World) (r : Route)
    (params : gmap string string) (u : option Farmer) :
  dispatch table (rq_method rq) (rq_path rq) = Some (r, params) ->
  visits rq w u ->
  (forall p : Plot,
     r_handler r = routes_plot ->
     Plot_get (params !! "plot") w = inr p ->
     let ctx := set_plot (set_user (initial_ctx rq params) u) p in
     handle rq w = (fst (routes routes_plot ctx w),
                    Handled (snd (routes routes_plot ctx w)))) /\
  (forall c : Crop,
     r_handler r = routes_crop ->
     Crop_get (params !! "crop") w = inr c ->
     let ctx := set_crop (set_user (initial_ctx rq params) u) c in
     handle rq w = (fst (routes routes_crop ctx w),
                    Handled (snd (routes routes_crop ctx w)))).
Proof.
  intros Hd Hv. rewrite (handle_dispatched _ _ _ _ Hd). split.
  - intros p Hp Hget ctx. subst ctx.
    assert (Hpr : plot_route (r_handler r) = true) by (rewrite Hp; reflexivity).
    rewrite (plot_route_chain r (dispatch_In _ _ _ _ _ Hd) Hpr), Hp.
    cbn [owner_only chain_ctx].
    rewrite (userAuth_visitor _ _ _ _ Hv). cbn [userOptional].
    unfold reqPlot. cbn [req_params set_user initial_ctx]. rewrite Hget.
    reflexivity.
  - intros c Hc Hget ctx. subst ctx.
    rewrite (crop_page_chain r (dispatch_In _ _ _ _ _ Hd) Hc), Hc.
    cbn [chain_ctx].
    rewrite (userAuth_visitor _ _ _ _ Hv). cbn [userOptional].
    unfold reqCrop. cbn [req_params set_user initial_ctx]. rewrite Hget.
    reflexivity.
Qed.

(** X14: a visitor without a session farmer is served the index, about, farmer
    and login pages, the login submission, [/authorized/:hostname] and the
    host-meta document, with no databank read by the middleware. *)
Theorem anonymous_served_on_open_pages (rq : Request) (w : World) (r : Route)
    (params : gmap string string) :
  dispatch table (rq_method rq) (rq_path rq) = Some (r, params) ->
  open_page (r_handler r) = true ->
  no_session_farmer (rq_farmerID rq) = true ->
  handle rq w = (fst (routes (r_handler r) (initial_ctx rq params) w),
                 Handled (snd (routes (r_handler r) (initial_ctx rq params) w))).
Proof.
  intros Hd Ho Hno.
  rewrite (handle_dispatched _ _ _ _ Hd).
  assert (Ha : auth (initial_ctx rq params) w = Next (initial_ctx rq params)).
  { apply (userAuth_visitor rq params w None). exact Hno. }
  destruct (open_page_chain r (dispatch_In _ _ _ _ _ Hd) Ho) as [Hc|[Hc|Hc]];
    rewrite Hc; cbn [chain_ctx]; rewrite ?Ha; reflexivity.
Qed.

(** X15: [userIsFarmer] lets a request pass exactly when [:webfinger] is bound
    to a non-empty string and is the id of [req.user]; it leaves the request
    as it is. *)
Theorem userIsFarmer_passes_iff (ctx ctx' : Ctx) (w : World) :
  userIsFarmer ctx w = Next ctx' <->
  ctx' = ctx /\
  exists u : Farmer,
    req_user ctx = Some u /\ farmer_id u <> "" /\
    req_params ctx !! "webfinger" = Some (farmer_id u).
Proof.
  unfold userIsFarmer. split.
  - destruct (req_params ctx !! "webfinger") as [wf|]; [|discriminate].
    destruct (String.eqb wf "") eqn:Hw; [discriminate|].
    destruct (req_user ctx) as [u|]; [|discriminate].
    destruct (String.eqb (farmer_id u) wf) eqn:He; [|discriminate].
    apply String.eqb_eq in He. apply String.eqb_neq in Hw. subst wf.
    intros [= <-]. split; [reflexivity|]. exists u. auto.
  - intros (-> & u & Hu & Hne & Hp). rewrite Hp, Hu.
    apply String.eqb_neq in Hne. rewrite Hne, String.eqb_refl. reflexivity.
Qed.

End AppEdges.

(** * Properties of the router *)

Section DispatchFacts.
Import Express.

Context {World : Type}.

Lemma match_path_bindings (pat : list Segment) :
  forall (path : list string) (ps ps' : gmap string string),
    match_path pat path ps = Some ps' ->
    length path = length pat /\
    forall name : string,
      (exists seg, ps' !! name = Some seg /\ seg <> "" /\ In seg path /\
                   In (Param name) pat)
      \/ (ps' !! name = ps !! name /\ ~ In (Param name) pat).
Proof.
  induction pat as [|[s|n] pat IH]; intros [|seg path] ps ps' Hm;
    simpl in Hm; try discriminate.
  - injection Hm as <-. split; [reflexivity|]. intros name. right. auto.
  - destruct (String.eqb s seg); [|discriminate].
    destruct (IH _ _ _ Hm) as [Hl Hb]. split; [simpl; congruence|].
    intros name. destruct (Hb name) as [(sg & H1 & H2 & H3 & H4)|[H1 H2]].
    + left. exists sg. simpl. auto.
    + right. split; [exact H1|]. simpl. intros [Hc|Hc]; [discriminate|auto].
  - destruct (String.eqb seg "") eqn:He; [discriminate|].
    apply String.eqb_neq in He.
    destruct (IH _ _ _ Hm) as [Hl Hb]. split; [simpl; congruence|].
    intros name. destruct (Hb name) as [(sg & H1 & H2 & H3 & H4)|[H1 H2]].
    + left. exists sg. simpl. auto.
    + destruct (decide (n = name)) as [->|Hne].
      * left. exists seg. rewrite lookup_insert_eq in H1. simpl. auto.
      * right. rewrite lookup_insert_ne in H1 by exact Hne.
        split; [exact H1|]. simpl. intros [Hc|Hc]; [congruence|auto].
Qed.

(** What the router hands to a chain: a registered route of the method of
    the request, whose pattern has as many segments as the path, and
    parameters that bind exactly the names of the pattern, each to a
    non-empty segment of the path. *)
Theorem dispatch_sound (tbl : list (@Route World)) (m : Method)
    (path : list string) (r : Route) (params : gmap string string) :
  dispatch tbl m path = Some (r, params) ->
  In r tbl /\ r_method r = m /\ length path = length (r_path r) /\
  (forall name : string,
     is_Some (params !! name) <-> In (Param name) (r_path r)) /\
  (forall name seg : string,
     params !! name = Some seg -> seg <> "" /\ In seg path).
Proof.
  induction tbl as [|r0 tbl IH]; simpl; [discriminate|].
  destruct (Method_eqb (r_method r0) m) eqn:Hmeth;
    [|intros H; destruct (IH H) as (? & ?); auto].
  destruct (match_path (r_path r0) path ∅) as [ps|] eqn:Hm;
    [|intros H; destruct (IH H) as (? & ?); auto].
  intros [= <- <-]. split; [left; reflexivity|].
  split; [destruct (r_method r0), m; (reflexivity || discriminate)|].
  destruct (match_path_bindings _ _ _ _ Hm) as [Hl Hb].
  split; [exact Hl|]. split.
  - intros name. destruct (Hb name) as [(sg & H1 & H2 & H3 & H4)|[H1 H2]].
    + split; [auto|eauto].
    + rewrite lookup_empty in H1. rewrite H1.
      split; [intros [? ?]; discriminate|contradiction].
  - intros name seg Hs.
    destruct (Hb name) as [(sg & H1 & H2 & H3 & H4)|[H1 H2]].
    + rewrite Hs in H1. injection H1 as <-. auto.
    + rewrite lookup_empty in H1. congruence.
Qed.

(** A request finds no route exactly when no registered route of its
    method matches its path. *)
Theorem dispatch_none_iff (tbl : list (@Route World)) (m : Method)
    (path : list string) :
  dispatch tbl m path = None <->
  forall r, In r tbl -> r_method r = m -> match_path (r_path r) path ∅ = None.
Proof.
  induction tbl as [|r0 tbl IH]; simpl.
  - split; [intros _ r []|reflexivity].
  - destruct (Method_eqb (r_method r0) m) eqn:Hmeth.
    + destruct (match_path (r_path r0) path ∅) as [ps|] eqn:Hm.
      * split; [discriminate|]. intros H.
        rewrite (H r0) in Hm; [discriminate|left; reflexivity|].
        destruct (r_method r0), m; (reflexivity || discriminate).
      * rewrite IH. split.
        -- intros H r [<-|Hin] Hr; [exact Hm|auto].
        -- intros H r Hin. apply H. right. exact Hin.
    + rewrite IH. split.
      * intros H r [<-|Hin] Hr; [|auto].
        subst m. destruct (r_method r0); discriminate.
      * intros H r Hin. apply H. right. exact Hin.
Qed.

End DispatchFacts.

Section TableFacts.
Import Express.

Context {World : Type}.
Variable Farmer_get : string -> World -> JsError + Farmer.
Variable Plot_get : option string -> World -> JsError + Plot.
Variable Crop_get : option string -> World -> JsError + Crop.

Local Abbreviation table := (route_table Farmer_get Plot_get Crop_get).

Lemma dispatch_skip_method (r0 : @Route World) (tbl : list Route) (m : Method)
    (path : list string) :
  Method_eqb (r_method r0) m = false ->
  dispatch (r0 :: tbl) m path = dispatch tbl m path.
Proof. intros H. simpl. rewrite H. reflexivity. Qed.

Lemma dispatch_skip_path (r0 : @Route World) (tbl : list Route) (m : Method)
    (path : list string) :
  match_path (r_path r0) path ∅ = None ->
  dispatch (r0 :: tbl) m path = dispatch tbl m path.
Proof.
  intros H. simpl. rewrite H. destruct (Method_eqb (r_method r0) m); reflexivity.
Qed.

Lemma dispatch_hit (r0 : @Route World) (tbl : list Route) (m : Method)
    (path : list string) (ps : gmap string string) :
  Method_eqb (r_method r0) m = true ->
  match_path (r_path r0) path ∅ = Some ps ->
  dispatch (r0 :: tbl) m path = Some (r0, ps).
Proof. intros H1 H2. simpl. rewrite H1, H2. reflexivity. Qed.

(** The shape of a path that a pattern of up to three segments matches. *)
Ltac matched_path Hm path :=
  destruct path as [|?s1 [|?s2 [|?s3 [|?s4 path]]]];
  cbn [match_path r_path] in Hm; try discriminate Hm;
  repeat match type of Hm with
         | context [String.eqb ?a ?b] =>
             let E := fresh "E" in
             destruct (String.eqb a b) eqn:E;
             try discriminate Hm;
             try (apply String.eqb_eq in E; subst)
         end.

Ltac use_segments :=
  repeat match goal with
         | H : String.eqb ?a ?b = false |- context [String.eqb ?a ?b] =>
             rewrite H
         end.

Ltac route_step :=
  first [ rewrite dispatch_skip_method by reflexivity
        | rewrite dispatch_skip_path by (simpl; use_segments; reflexivity)
        | erewrite dispatch_hit by (simpl; use_segments; reflexivity) ].

(** X16: no two routes of the table compete for a request: a route whose
    pattern matches the path is the one the router picks for its method, so
    that the order of registration decides nothing. *)
Theorem dispatch_unambiguous (r : Route) (path : list string)
    (params : gmap string string) :
  In r table ->
  match_path (r_path r) path ∅ = Some params ->
  exists r', dispatch table (r_method r) path = Some (r', params) /\
             r_handler r' = r_handler r /\
             r_middleware r' = r_middleware r.
Proof.
  intros Hin Hm. unfold route_table in Hin |- *. cbn [In] in Hin.
  repeat (destruct Hin as [<-|Hin];
          [matched_path Hm path; injection Hm as <-;
           cbn [r_method]; repeat route_step;
           eexists; split; [reflexivity|split; reflexivity]|]).
  destruct Hin.
Qed.

End TableFacts.

(** * Further properties of the start-up sequence *)

Section StartupEdges.
Import Config.
Import Express.
Import Startup.

Ltac by_collaborators config env :=
  destruct env as [conn seed key upd lis];
  unfold startup, task_connect, task_seed, task_serve, task_end, all_ok;
  cbn [db_connect CropType_initialData readFileSync_key updater_start app_listen];
  destruct conn as [|?|]; destruct seed as [|?|];
  destruct (underscore_has config "key");
  destruct key as [?|]; destruct upd as [?|]; destruct lis as [|?|];
  cbn [waterfall app In].

(** X18: the final callback of the waterfall ignores its error argument: when
    [db.connect] or [CropType.initialData] reports an error, "Express
    server listening" is logged all the same, although no server was
    created, no updater started and nothing listens. *)
Theorem failed_startup_logs_listening (config : object) (env : Env) (e : JsError) :
  db_connect env = CbErr e \/
  (db_connect env = CbOk /\ CropType_initialData env = CbErr e) ->
  last (startup config env) = Some EvLogListening /\
  Forall (fun ev => In ev [EvConnect; EvSetBank; EvInitialData; EvLogListening])
         (startup config env).
Proof.
  by_collaborators config env; intros [H|[H1 H2]];
    try discriminate;
    (split; [reflexivity|]);
    repeat (apply List.Forall_cons; [simpl; auto 10|]); apply List.Forall_nil.
Qed.

(** X19: "Express server listening" is logged exactly when the waterfall
    reaches its final callback: after an error of [db.connect] or of
    [CropType.initialData], or when the third task has run through and
    [app.listen] has called back. *)
Theorem listening_logged_iff (config : object) (env : Env) :
  In EvLogListening (startup config env) <->
  match db_connect env with
  | CbErr _ => True
  | CbNever => False
  | CbOk =>
      match CropType_initialData env with
      | CbErr _ => True
      | CbNever => False
      | CbOk =>
          (if underscore_has config "key"
           then readFileSync_key env = None else True) /\
          updater_start env = None /\
          app_listen env <> CbNever
      end
  end.
Proof.
  by_collaborators config env;
    (split;
     [intros Hin;
      repeat (destruct Hin as [Hin|Hin]; try discriminate Hin);
      try contradiction; try exact I;
      repeat split; discriminate
     |intros H;
      try contradiction;
      try (destruct H as (H1 & H2 & H3); try discriminate; try congruence);
      auto 20]).
Qed.

(** X20: the bouncer on port 80 listens exactly when the configuration has a
    [key] and connect, seed, the reading of the key files and the start of
    the updater have succeeded; it listens on the configured address; and
    the server is created for HTTPS exactly when the configuration has a
    [key]. *)
Theorem bouncer_only_with_key (config : object) (env : Env) :
  (forall a : jsval,
     In (EvBounceListen a) (startup config env) <->
     a = config !! "address" /\ underscore_has config "key" = true /\
     all_ok env) /\
  (forall https : bool,
     In (EvCreateServer https) (startup config env) ->
     https = underscore_has config "key").
Proof.
  split.
  - intros a. destruct (underscore_has config "key") eqn:Hk;
      destruct env as [conn seed key upd lis];
      unfold startup, task_connect, task_seed, task_serve, task_end, all_ok;
      rewrite Hk;
      cbn [db_connect CropType_initialData readFileSync_key updater_start app_listen];
      destruct conn as [|?|]; destruct seed as [|?|];
      destruct key as [?|]; destruct upd as [?|]; destruct lis as [|?|];
      cbn [waterfall app In];
      (split;
       [intros Hin;
        repeat (destruct Hin as [Hin|Hin]; try discriminate Hin);
        try contradiction;
        injection Hin as <-; repeat split
       |intros (Ha & Hkey & H1 & H2 & H3 & H4);
        try discriminate; subst a; auto 20]).
  - intros https. destruct (underscore_has config "key") eqn:Hk;
      destruct env as [conn seed key upd lis];
      unfold startup, task_connect, task_seed, task_serve, task_end;
      rewrite Hk;
      cbn [db_connect CropType_initialData readFileSync_key updater_start app_listen];
      destruct conn as [|?|]; destruct seed as [|?|];
      destruct key as [?|]; destruct upd as [?|]; destruct lis as [|?|];
      cbn [waterfall app In];
      intros Hin;
      repeat (destruct Hin as [Hin|Hin]; try discriminate Hin);
      try contradiction;
      injection Hin as <-; reflexivity.
Qed.

End StartupEdges.

(** * The properties at work on the in-memory databank *)

Section EdgeRuns.
Import Config.
Import Schema.
Import Express.
Import Startup.

Local Abbreviation on_bank T :=
  (T mem_Farmer_get mem_Plot_get mem_Crop_get mem_routes) (only parsing).

Lemma schema_precedence_witness :
  let Farmer_schema : object :=
    {[ "farmerlist" := JObj []; "croptypelist" := JNull ]} in
  let CropType_schema : object := {[ "croptypelist" := JObj [] ]} in
  let Cls := mkClass "plot" (JObj [("pkey", JStr "uuid")]) in
  let configured : object := {[ "farmerlist" := JNum 1; "note" := JNum 2 ]} in
  let schema :=
    build_schema ∅ ∅ Farmer_schema CropType_schema Cls Cls Cls Cls
                 (Some configured) in
  schema !! "farmerlist" = Some (JObj []) /\
  schema !! "croptypelist" = Some (JObj []).
Proof.
  intros Farmer_schema CropType_schema Cls configured schema.
  destruct (schema_precedence ∅ ∅ Farmer_schema CropType_schema
              Cls Cls Cls Cls (Some configured)) as (Hc & Hf & _).
  split.
  - apply Hf; reflexivity.
  - apply (proj1 (map_subseteq_spec _ _) Hc). reflexivity.
Defined.

(** Alice waters her plot: the handler has run, so the session names a
    farmer who is loaded and owns the plot. *)
Lemma handler_runs_only_when_authorised_witness :
  exists (fid : string) (f : Farmer) (p : Plot),
    fid <> "" /\ mem_Farmer_get fid bank0 = inr f /\
    mem_Plot_get (Some "p1") bank0 = inr p /\
    farmer_id f = plot_owner p.
Proof.
  edestruct (on_bank handler_runs_only_when_authorised
               (mkRequest POST ["plot"; "p1"; "water"] (Some "alice@farm.example"))
               bank0)
    as (fid & f & ctx & Hs & Hne & Hget & Hu & Hl & Hp & Hr & Ho);
    [reflexivity|reflexivity|reflexivity|].
  destruct (Ho eq_refl) as (p & Hplot & Hrp & He).
  exists fid, f, p. repeat split; assumption.
Defined.

Lemma owner_request_served_witness :
  snd (mem_handle_request
         (mkRequest POST ["plot"; "p1"; "harvest"] (Some "alice@farm.example")) bank0)
  = Handled "done".
Proof.
  unfold mem_handle_request.
  erewrite (on_bank owner_request_served _ _ _ _
              (mkFarmer "alice@farm.example")
              (mkPlot "p1" "alice@farm.example" (Some "c1")));
    [reflexivity|reflexivity|reflexivity| |reflexivity|reflexivity].
  exists "alice@farm.example". repeat split.
Defined.

Lemma logged_in_farmer_cannot_login_witness :
  mem_handle_request (mkRequest GET ["login"] (Some "bob@farm.example")) bank0
  = (bank0, Errored (Error "Already logged in")).
Proof.
  eapply (on_bank logged_in_farmer_cannot_login); [reflexivity|reflexivity|].
  exists "bob@farm.example". repeat split.
Defined.

(** Carol has a session but is not in the bank: even the index page
    fails. *)
Lemma unloadable_session_farmer_fails_witness :
  mem_handle_request (mkRequest GET [] (Some "carol@farm.example")) bank0
  = (bank0, Errored (DatabankError "NoSuchThingError" "farmer")).
Proof.
  eapply (on_bank unloadable_session_farmer_fails); reflexivity.
Defined.

(** Bob asks to water a plot that does not exist: the missing plot is
    reported, not the missing ownership. *)
Lemma missing_document_reported_witness :
  mem_handle_request
    (mkRequest POST ["plot"; "p9"; "water"] (Some "bob@farm.example")) bank0
  = (bank0, Errored (DatabankError "NoSuchThingError" "plot")) /\
  mem_handle_request (mkRequest GET ["crop"; "c9"] None) bank0
  = (bank0, Errored (DatabankError "NoSuchThingError" "crop")).
Proof.
  split.
  - eapply (fun Hd Hv =>
              proj1 (on_bank missing_document_reported _ _ _ _
                       (Some (mkFarmer "bob@farm.example")) _ Hd Hv)).
    + reflexivity.
    + exists "bob@farm.example". repeat split.
    + reflexivity.
    + intros _. eexists. reflexivity.
    + reflexivity.
  - eapply (fun Hd Hv =>
              proj2 (on_bank missing_document_reported _ _ _ _ None _ Hd Hv));
      reflexivity.
Defined.

(** Bob, who owns nothing, looks at the plot of Alice. *)
Lemma plot_and_crop_pages_public_witness :
  snd (mem_handle_request
         (mkRequest GET ["plot"; "p1"] (Some "bob@farm.example")) bank0)
  = Handled "done" /\
  snd (mem_handle_request (mkRequest GET ["crop"; "c1"] None) bank0)
  = Handled "done".
Proof.
  unfold mem_handle_request. split.
  - erewrite (fun Hd Hv =>
                proj1 (on_bank plot_and_crop_pages_public _ _ _ _
                         (Some (mkFarmer "bob@farm.example")) Hd Hv)
                      (mkPlot "p1" "alice@farm.example" (Some "c1")));
      [reflexivity|reflexivity| |reflexivity|reflexivity].
    exists "bob@farm.example". repeat split.
  - erewrite (fun Hd Hv =>
                proj2 (on_bank plot_and_crop_pages_public _ _ _ _ None Hd Hv)
                      (mkCrop "c1" "p1"));
      reflexivity.
Defined.

Lemma anonymous_served_on_open_pages_witness :
  mem_handle_request (mkRequest GET ["about"] None) bank0
  = (bank0, Handled "done").
Proof.
  unfold mem_handle_request.
  erewrite (on_bank anonymous_served_on_open_pages); reflexivity.
Defined.

Lemma userIsFarmer_passes_iff_witness :
  let ctx :=
    mkCtx (Some "alice@farm.example") {[ "webfinger" := "alice@farm.example" ]}
          (Some (mkFarmer "alice@farm.example")) None None
          (Some (mkFarmer "alice@farm.example")) in
  userIsFarmer ctx bank0 = Next ctx.
Proof.
  intros ctx. apply (proj2 (userIsFarmer_passes_iff ctx ctx bank0)).
  split; [reflexivity|]. exists (mkFarmer "alice@farm.example").
  split; [reflexivity|]. split; [discriminate|reflexivity].
Defined.

Lemma dispatch_sound_witness :
  exists r params,
    dispatch (route_table mem_Farmer_get mem_Plot_get mem_Crop_get)
             POST ["plot"; "p1"; "water"] = Some (r, params) /\
    r_method r = POST /\
    (is_Some (params !! "plot") <-> In (Param "plot") (r_path r)).
Proof.
  eexists _, _. split; [reflexivity|].
  edestruct (dispatch_sound (route_table mem_Farmer_get mem_Plot_get mem_Crop_get)
               POST ["plot"; "p1"; "water"])
    as (_ & Hm & _ & Hb & _); [reflexivity|].
  split; [exact Hm|apply Hb].
Defined.

(** No route answers a POST to [/about]. *)
Lemma dispatch_none_iff_witness :
  Forall (fun r : Route =>
            r_method r = POST -> match_path (r_path r) ["about"] ∅ = None)
         (route_table mem_Farmer_get mem_Plot_get mem_Crop_get).
Proof.
  apply List.Forall_forall.
  apply (proj1 (dispatch_none_iff
                  (route_table mem_Farmer_get mem_Plot_get mem_Crop_get)
                  POST ["about"])).
  reflexivity.
Defined.

Lemma dispatch_unambiguous_witness :
  exists r',
    dispatch (route_table mem_Farmer_get mem_Plot_get mem_Crop_get)
             POST ["plot"; "p1"; "tearup"]
    = Some (r', {[ "plot" := "p1" ]}) /\
    r_handler r' = routes_handleTearUp.
Proof.
  destruct (dispatch_unambiguous mem_Farmer_get mem_Plot_get mem_Crop_get
              (mkRoute POST [Lit "plot"; Param "plot"; Lit "tearup"]
                       [userAuth mem_Farmer_get; userRequired;
                        reqPlot mem_Plot_get; userIsOwner]
                       routes_handleTearUp)
              ["plot"; "p1"; "tearup"] {[ "plot" := "p1" ]})
    as (r' & Hd & Hh & _).
  - simpl. do 12 right. left. reflexivity.
  - reflexivity.
  - exists r'. split; [exact Hd|exact Hh].
Defined.

Lemma failed_startup_logs_listening_witness :
  let env := mkEnv (CbErr (DatabankError "ConnectError" "refused"))
                   CbOk None None CbOk in
  last (startup (config_of None) env) = Some EvLogListening /\
  ~ In EvUpdaterStart (startup (config_of None) env).
Proof.
  intros env.
  destruct (failed_startup_logs_listening (config_of None) env
              (DatabankError "ConnectError" "refused") (or_introl eq_refl))
    as [Hl Hall].
  split; [exact Hl|].
  intros Hin. apply (proj1 (List.Forall_forall _ _) Hall) in Hin.
  simpl in Hin. intuition discriminate.
Defined.

Lemma listening_logged_iff_witness :
  In EvLogListening (startup (config_of None) (mkEnv CbOk CbOk None None CbOk)) /\
  ~ In EvLogListening (startup (config_of None) (mkEnv CbOk CbNever None None CbOk)).
Proof.
  split.
  - apply (proj2 (listening_logged_iff (config_of None)
                    (mkEnv CbOk CbOk None None CbOk))).
    simpl. repeat split. discriminate.
  - intros Hin.
    apply (proj1 (listening_logged_iff (config_of None)
                    (mkEnv CbOk CbNever None None CbOk))) in Hin.
    exact Hin.
Defined.

Lemma bouncer_only_with_key_witness :
  let config := config_of (Some {[ "key" := JStr "/etc/ssl/farm.key";
                                   "cert" := JStr "/etc/ssl/farm.crt" ]}) in
  In (EvBounceListen (Some (JStr "localhost")))
     (startup config (mkEnv CbOk CbOk None None CbOk)) /\
  ~ In (EvBounceListen (Some (JStr "localhost")))
       (startup (config_of None) (mkEnv CbOk CbOk None None CbOk)).
Proof.
  intros config. split.
  - apply (proj1 (bouncer_only_with_key config (mkEnv CbOk CbOk None None CbOk))).
    repeat split.
  - intros Hin.
    apply (proj1 (bouncer_only_with_key (config_of None)
                    (mkEnv CbOk CbOk None None CbOk))) in Hin.
    destruct Hin as (_ & Hk & _). discriminate Hk.
Defined.

End EdgeRuns.

Section SafeMethods.
Import Express.

Context {World Response : Type}.
Variable Farmer_get : string -> World -> JsError + Farmer.
Variable Plot_get : option string -> World -> JsError + Plot.
Variable Crop_get : option string -> World -> JsError + Crop.
Variable routes : HandlerName -> Ctx -> World -> World * Response.
Variable methodOverride : Request -> option Method.

Local Abbreviation table := (route_table Farmer_get Plot_get Crop_get).

Lemma table_methods (r : Route) :
  In r table ->
  r_method r = GET /\ mutating (r_handler r) = false \/
  r_method r = POST /\
  (mutating (r_handler r) = true \/ r_handler r = routes_handleLogin).
Proof.
  simpl. intros Hin.
  repeat (destruct Hin as [<-|Hin]; [simpl; auto|]).
  destruct Hin.
Qed.

(** Without an override the stack serves a request as the router does. *)
Lemma serve_as_sent (rq : Request) (w : World) :
  serve Farmer_get Plot_get Crop_get routes
        (fun rq => Some (rq_method rq)) rq w
  = handle_request Farmer_get Plot_get Crop_get routes rq w.
Proof.
  unfold serve, routed, handle_request.
  destruct (dispatch table (rq_method rq) (rq_path rq)) as [[r params]|];
    reflexivity.
Qed.

(** X17: the mutating handlers are registered under POST only.  Whatever
    method a request was sent with and whatever [express.methodOverride()]
    makes of it, a request that reaches the router as a GET is never routed
    to a handler that changes a plot, a crop or the session, and one that
    reaches it as a POST is routed to nothing else but such a handler or
    the login submission; a request whose method has no route is not routed
    at all. *)
Theorem get_never_mutates (rq : Request) (r : Route)
    (params : gmap string string) :
  routed Farmer_get Plot_get Crop_get methodOverride rq = Some (r, params) ->
  match methodOverride rq with
  | Some GET => mutating (r_handler r) = false
  | Some POST =>
      mutating (r_handler r) = true \/ r_handler r = routes_handleLogin
  | None => False
  end.
Proof.
  unfold routed. destruct (methodOverride rq) as [m|]; [|discriminate].
  intros Hd. destruct (dispatch_sound _ _ _ _ _ Hd) as (Hin & Hm & _).
  destruct (table_methods r Hin) as [[Hg Hn]|[Hp Hy]]; subst m.
  - rewrite Hg. exact Hn.
  - rewrite Hp. exact Hy.
Qed.

End SafeMethods.

Section SafeMethodsRun.
Import Express.

(** A harvest request sent as a GET: as sent it gets the form, which
    mutates nothing; with the override header it is a POST for the router
    and gets the handler that harvests. *)
Lemma get_never_mutates_witness :
  let rq := mkRequest GET ["plot"; "p1"; "harvest"] (Some "alice@farm.example") in
  (exists r params,
     routed mem_Farmer_get mem_Plot_get mem_Crop_get
            (fun rq => Some (rq_method rq)) rq = Some (r, params) /\
     r_handler r = routes_harvest /\ mutating (r_handler r) = false) /\
  (exists r params,
     routed mem_Farmer_get mem_Plot_get mem_Crop_get
            header_override_post rq = Some (r, params) /\
     r_handler r = routes_handleHarvest /\
     (mutating (r_handler r) = true \/ r_handler r = routes_handleLogin)).
Proof.
  intros rq. split.
  - eexists _, _. split; [reflexivity|]. split; [reflexivity|].
    apply (get_never_mutates mem_Farmer_get mem_Plot_get mem_Crop_get
             (fun rq => Some (rq_method rq)) rq _ {[ "plot" := "p1" ]}).
    reflexivity.
  - eexists _, _. split; [reflexivity|]. split; [reflexivity|].
    apply (get_never_mutates mem_Farmer_get mem_Plot_get mem_Crop_get
             header_override_post rq _ {[ "plot" := "p1" ]}).
    reflexivity.
Defined.

End SafeMethodsRun.
